(** * Enrollment System API: billing reconciliation

    A shallow embedding of [backend/main.py] and [schemas.py]: the request
    handlers [get_subject], [create_enrollment] and [create_payment], run one
    request at a time against a model of the MongoDB collections they use,
    and after them the handlers of the catalog, the listings and the users.

    - Python [float] is IEEE binary64: the kernel's primitive [float].
    - A collection is the list of its documents in storage order; [find_one]
      returns the first match, [update_one] changes the first match.
    - A handler is a function from the database to an outcome (a value or a
      raised exception) and the database it leaves behind: what was written
      before an exception stays written.
    - The identifiers the driver assigns to new documents and the readings of
      the clock are inputs of the handlers. *)

From Stdlib Require Import List String Ascii NArith Bool Arith Lia Eqdep_dec.
From Stdlib Require Import Strings.Byte.
From Stdlib Require Import Floats.PrimFloat.
From Stdlib Require Floats.SpecFloat Floats.FloatOps Floats.FloatAxioms.
Import ListNotations.

Local Open Scope string_scope.
Local Open Scope list_scope.

(** ** bson.ObjectId *)

(** The value of a hexadecimal digit; [bytes.fromhex] accepts both cases. *)
Definition hex_value (c : ascii) : option N :=
  let n := N_of_ascii c in
  if (48 <=? n)%N && (n <=? 57)%N then Some (n - 48)%N
  else if (97 <=? n)%N && (n <=? 102)%N then Some (n - 87)%N
  else if (65 <=? n)%N && (n <=? 70)%N then Some (n - 55)%N
  else None.

(** The lower-case digit of a value below 16, as [bytes.hex] prints it. *)
Definition hex_digit (n : N) : ascii :=
  if (n <? 10)%N then ascii_of_N (48 + n) else ascii_of_N (87 + n).

Fixpoint fromhex (s : string) : option (list byte) :=
  match s with
  | EmptyString => Some []
  | String hi (String lo rest) =>
      match hex_value hi, hex_value lo, fromhex rest with
      | Some h, Some l, Some bs =>
          match Byte.of_N (16 * h + l) with
          | Some b => Some (b :: bs)
          | None => None
          end
      | _, _, _ => None
      end
  | String _ EmptyString => None
  end.

Definition hex_of_byte (b : byte) : string :=
  let n := Byte.to_N b in
  String (hex_digit (n / 16)) (String (hex_digit (n mod 16)) EmptyString).

Fixpoint hex (bs : list byte) : string :=
  match bs with
  | [] => EmptyString
  | b :: rest => hex_of_byte b ++ hex rest
  end.

(** An ObjectId is twelve bytes. *)
Record oid : Type := mk_oid {
  oid_bytes : list byte;
  oid_len : Nat.eqb (List.length oid_bytes) 12 = true
}.

Definition oid_eqb (a b : oid) : bool :=
  if list_eq_dec Byte.byte_eq_dec (oid_bytes a) (oid_bytes b) then true else false.

(** [str(oid)]: twenty-four lower-case hexadecimal digits. *)
Definition str (o : oid) : string := hex (oid_bytes o).

(** ** Exceptions and handlers *)

Inductive exn : Type :=
| HTTPException (status_code : nat) (detail : string)
| InvalidId
| TypeError
| AttributeError
| DuplicateKeyError.

Inductive outcome (A : Type) : Type :=
| Return (a : A)
| Raise (e : exn).
Arguments Return {A} a.
Arguments Raise {A} e.

(** [ObjectId(s)]: a string of twenty-four hexadecimal digits, else
    [InvalidId].  The library also takes a string of twenty-four characters
    in which [bytes.fromhex] skips white space; the identifier it builds is
    shorter than twelve bytes and no stored document has it.  Such a string
    is [InvalidId] here. *)
Definition ObjectId (s : string) : outcome oid :=
  if Nat.eqb (String.length s) 24 then
    match fromhex s with
    | Some bs =>
        match bool_dec (Nat.eqb (List.length bs) 12) true with
        | left H => Return (mk_oid bs H)
        | right _ => Raise InvalidId
        end
    | None => Raise InvalidId
    end
  else Raise InvalidId.

(** The status of the response the framework sends: the code of an
    [HTTPException], 500 for any other exception. *)
Definition http_status {A : Type} (r : outcome A) : nat :=
  match r with
  | Return _ => 200
  | Raise (HTTPException c _) => c
  | Raise _ => 500
  end.

(** ** schemas.py *)

Definition datetime : Type := N.

Inductive EnrollmentStatus : Type := enrolled | dropped | completed.

Inductive BillStatus : Type := Unpaid | Partial | Paid.

(** The string stored in the [status] field of a bill. *)
Definition status_name (s : BillStatus) : string :=
  match s with
  | Unpaid => "unpaid"
  | Partial => "partial"
  | Paid => "paid"
  end.

Module Subject.
Record t : Type := mk {
  code : string;
  title : string;
  units : float;
  fee_per_unit : float;
  faculty_id : option string
}.
End Subject.

Module Enrollment.
Record t : Type := mk {
  student_id : string;
  subject_id : string;
  semester : string;
  status : EnrollmentStatus
}.
End Enrollment.

Module BillLine.
Record t : Type := mk {
  subject_id : string;
  description : string;
  amount : float
}.
End BillLine.

Module Bill.
Record t : Type := mk {
  student_id : string;
  semester : string;
  lines : list BillLine.t;
  total : float;
  paid : float;
  status : BillStatus
}.
End Bill.

Module Payment.
Record t : Type := mk {
  bill_id : string;
  amount : float;
  cashier_id : string;
  paid_at : datetime
}.
End Payment.

(** [PaymentCreate], the request body of [create_payment] (main.py). *)
Module PaymentCreate.
Record t : Type := mk {
  bill_id : string;
  amount : float;
  cashier_id : string
}.
End PaymentCreate.

(** Construction of a model runs the constraints of its fields.  [Subject]
    declares [ge=0] on [units] and [fee_per_unit]; [Payment] and
    [PaymentCreate] declare [amount: float] and nothing more. *)
Inductive ValidationError : Type := field_error (field : string).

Definition validate_Subject (code title : string) (units fee_per_unit : float)
    (faculty_id : option string) : Subject.t + ValidationError :=
  if negb (0 <=? units)%float then inr (field_error "units")
  else if negb (0 <=? fee_per_unit)%float then inr (field_error "fee_per_unit")
  else inl (Subject.mk code title units fee_per_unit faculty_id).



(** ** The database *)

(** A stored document: the model's fields, the [_id] the store gave it and
    the [updated_at] stamp the handlers set. *)
Record doc (A : Type) : Type := mk_doc {
  _id : oid;
  data : A;
  updated_at : option datetime
}.
Arguments mk_doc {A} _ _ _.
Arguments _id {A} d.
Arguments data {A} d.
Arguments updated_at {A} d.

(** The collections the three handlers touch ([user] and [attendance] are
    used by none of them). *)
Record Database : Type := mk_db {
  subject : list (doc Subject.t);
  enrollment : list (doc Enrollment.t);
  bill : list (doc Bill.t);
  payment : list (doc Payment.t)
}.

Definition empty_db : Database := mk_db [] [] [] [].

(** [db["name"]]: how to read and replace one collection. *)
Record collection (A : Type) : Type := mk_collection {
  docs : Database -> list (doc A);
  with_docs : list (doc A) -> Database -> Database
}.
Arguments docs {A} c db.
Arguments with_docs {A} c l db.

Definition subject_c : collection Subject.t :=
  mk_collection _ subject
    (fun l db => mk_db l (enrollment db) (bill db) (payment db)).
Definition enrollment_c : collection Enrollment.t :=
  mk_collection _ enrollment
    (fun l db => mk_db (subject db) l (bill db) (payment db)).
Definition bill_c : collection Bill.t :=
  mk_collection _ bill
    (fun l db => mk_db (subject db) (enrollment db) l (payment db)).
Definition payment_c : collection Payment.t :=
  mk_collection _ payment
    (fun l db => mk_db (subject db) (enrollment db) (bill db) l).

(** ** The handler monad: database state and exceptions *)

Definition M (A : Type) : Type := Database -> outcome A * Database.

Definition ret {A : Type} (a : A) : M A := fun db => (Return a, db).

Definition raise {A : Type} (e : exn) : M A := fun db => (Raise e, db).

Definition lift {A : Type} (r : outcome A) : M A := fun db => (r, db).

Definition bind {A B : Type} (m : M A) (k : A -> M B) : M B :=
  fun db =>
    match m db with
    | (Return a, db') => k a db'
    | (Raise e, db') => (Raise e, db')
    end.

(** [try: m  except Exception: h]. *)
Definition try_except {A : Type} (m : M A) (h : exn -> M A) : M A :=
  fun db =>
    match m db with
    | (Return a, db') => (Return a, db')
    | (Raise e, db') => h e db'
    end.

Declare Scope handler_scope.
Delimit Scope handler_scope with handler.
Notation "x <- m ;; k" := (bind m (fun x => k))
  (at level 61, m at next level, right associativity) : handler_scope.
Notation "m ;;; k" := (bind m (fun _ => k))
  (at level 61, right associativity) : handler_scope.
Local Open Scope handler_scope.

(** ** Collection operations (pymongo) *)

Definition by_id {A : Type} (o : oid) (d : doc A) : bool := oid_eqb (_id d) o.

Definition find {A : Type} (c : collection A) (p : doc A -> bool)
    : M (list (doc A)) :=
  fun db => (Return (List.filter p (docs c db)), db).

Definition find_one {A : Type} (c : collection A) (p : doc A -> bool)
    : M (option (doc A)) :=
  fun db => (Return (List.find p (docs c db)), db).

Fixpoint update_first {A : Type} (p : A -> bool) (f : A -> A) (l : list A)
    : list A :=
  match l with
  | [] => []
  | d :: rest => if p d then f d :: rest else d :: update_first p f rest
  end.

(** [update_one]: the first matching document is changed; no match is not an
    error. *)
Definition update_one {A : Type} (c : collection A) (p : doc A -> bool)
    (f : doc A -> doc A) : M unit :=
  fun db => (Return tt, with_docs c (update_first p f (docs c db)) db).

(** Modelled from the spec: [create_document] of [database.py], which is not
    among the sources.  [Create(collection, record) -> id] persists a new
    record and returns a newly assigned unique identifier, as the string the
    callers pass back to [ObjectId].  The identifier is the one the driver
    generated; the collection's index on [_id] refuses one already taken. *)
Definition create_document {A : Type} (c : collection A) (new_id : oid)
    (record : A) : M string :=
  fun db =>
    if existsb (by_id new_id) (docs c db) then (Raise DuplicateKeyError, db)
    else (Return (str new_id),
          with_docs c (docs c db ++ [mk_doc new_id record None]) db).

(** ** main.py *)

(** The built-in [sum] over the amounts: from 0, adding left to right.
    Recent CPython versions compensate the rounding error of this loop; the
    two agree whenever the additions are exact, and no theorem below depends
    on how the sum is rounded. *)
Definition py_sum (xs : list float) : float :=
  fold_left (fun acc x => (acc + x)%float) xs 0%float.

(** The status expression of both handlers:
    ["paid" if paid >= total and total > 0 else
     ("partial" if paid > 0 else "unpaid")]. *)
Definition status_rule (paid total : float) : BillStatus :=
  if (total <=? paid)%float && (0 <? total)%float then Paid
  else if (0 <? paid)%float then Partial
  else Unpaid.

(** [GET /subjects/{subject_id}]: the document with its [_id] as a string. *)
Definition get_subject (subject_id : string) : M (string * Subject.t) :=
  try_except
    (o <- lift (ObjectId subject_id) ;;
     found <- find_one subject_c (by_id o) ;;
     match found with
     | None => raise (HTTPException 404 "Subject not found")
     | Some d => ret (str (_id d), data d)
     end)
    (fun _ => raise (HTTPException 400 "Invalid subject id")).

(** The filter of the duplicate check. *)
Definition same_enrollment (enr : Enrollment.t) (d : doc Enrollment.t) : bool :=
  String.eqb (Enrollment.student_id (data d)) (Enrollment.student_id enr)
  && String.eqb (Enrollment.subject_id (data d)) (Enrollment.subject_id enr)
  && String.eqb (Enrollment.semester (data d)) (Enrollment.semester enr).

(** The filter [{"student_id": ..., "semester": ...}] over bills. *)
Definition bill_of (student_id semester : string) (d : doc Bill.t) : bool :=
  String.eqb (Bill.student_id (data d)) student_id
  && String.eqb (Bill.semester (data d)) semester.

(** [{"$push": {"lines": line}, "$set": {"updated_at": now}}]. *)
Definition push_line (line : BillLine.t) (now : datetime) (d : doc Bill.t)
    : doc Bill.t :=
  let b := data d in
  mk_doc (_id d)
    (Bill.mk (Bill.student_id b) (Bill.semester b) (Bill.lines b ++ [line])
       (Bill.total b) (Bill.paid b) (Bill.status b))
    (Some now).

(** [{"$set": {"total": total, "status": status}}]. *)
Definition set_total_status (total : float) (status : BillStatus)
    (d : doc Bill.t) : doc Bill.t :=
  let b := data d in
  mk_doc (_id d)
    (Bill.mk (Bill.student_id b) (Bill.semester b) (Bill.lines b)
       total (Bill.paid b) status)
    (updated_at d).

(** [{"$set": {"paid": paid, "status": status, "updated_at": now}}]. *)
Definition set_paid_status (paid : float) (status : BillStatus)
    (now : datetime) (d : doc Bill.t) : doc Bill.t :=
  let b := data d in
  mk_doc (_id d)
    (Bill.mk (Bill.student_id b) (Bill.semester b) (Bill.lines b)
       (Bill.total b) paid status)
    (Some now).

(** The fee of the enrolled subject; any exception of the lookup leaves the
    initial [fee = 0.0]. *)
Definition subject_fee (subject_id : string) : M float :=
  try_except
    (o <- lift (ObjectId subject_id) ;;
     found <- find_one subject_c (by_id o) ;;
     match found with
     | Some s =>
         ret (Subject.units (data s) * Subject.fee_per_unit (data s))%float
     | None => ret 0%float
     end)
    (fun _ => ret 0%float).

(** [POST /enrollments].  [new_eid] and [new_bid] are the identifiers
    generated for the enrollment and, if one is created, the bill; [now] is
    the reading of [datetime.utcnow()]. *)
Definition create_enrollment (new_eid new_bid : oid) (now : datetime)
    (enr : Enrollment.t) : M string :=
  existing <- find enrollment_c (same_enrollment enr) ;;
  match existing with
  | _ :: _ => raise (HTTPException 400 "Already enrolled")
  | [] =>
      eid <- create_document enrollment_c new_eid enr ;;
      fee <- subject_fee (Enrollment.subject_id enr) ;;
      found <- find_one bill_c
                 (bill_of (Enrollment.student_id enr) (Enrollment.semester enr)) ;;
      bill0 <- match found with
               | Some b => ret (Some b)
               | None =>
                   bill_id <- create_document bill_c new_bid
                                (Bill.mk (Enrollment.student_id enr)
                                   (Enrollment.semester enr) [] 0%float 0%float
                                   Unpaid) ;;
                   o <- lift (ObjectId bill_id) ;;
                   find_one bill_c (by_id o)
               end ;;
      match bill0 with
      | None => raise TypeError
      | Some b0 =>
          let line :=
            BillLine.mk (Enrollment.subject_id enr) "Tuition for subject" fee in
          update_one bill_c (by_id (_id b0)) (push_line line now) ;;;
          reread <- find_one bill_c (by_id (_id b0)) ;;
          match reread with
          | None => raise AttributeError
          | Some b1 =>
              let total := py_sum (map BillLine.amount (Bill.lines (data b1))) in
              let status := status_rule (Bill.paid (data b1)) total in
              update_one bill_c (by_id (_id b1)) (set_total_status total status) ;;;
              ret eid
          end
      end
  end.

(** [POST /payments].  [new_pid] is the identifier generated for the payment
    record; [paid_at] and [now] are the two readings of the clock. *)
Definition create_payment (new_pid : oid) (paid_at now : datetime)
    (payload : PaymentCreate.t) : M string :=
  o <- lift (ObjectId (PaymentCreate.bill_id payload)) ;;
  found <- find_one bill_c (by_id o) ;;
  match found with
  | None => raise (HTTPException 404 "Bill not found")
  | Some b =>
      pid <- create_document payment_c new_pid
               (Payment.mk (PaymentCreate.bill_id payload)
                  (PaymentCreate.amount payload)
                  (PaymentCreate.cashier_id payload) paid_at) ;;
      let paid := (Bill.paid (data b) + PaymentCreate.amount payload)%float in
      let status := status_rule paid (Bill.total (data b)) in
      update_one bill_c (by_id (_id b)) (set_paid_status paid status now) ;;;
      ret pid
  end.

(** ** What the handlers compute *)

(** The fee [create_enrollment] charges for a subject identifier. *)
Definition fee_of (db : Database) (subject_id : string) : float :=
  match ObjectId subject_id with
  | Return o =>
      match List.find (by_id o) (subject db) with
      | Some s => (Subject.units (data s) * Subject.fee_per_unit (data s))%float
      | None => 0%float
      end
  | Raise _ => 0%float
  end.

(** The two updates of [create_enrollment] on one bill document. *)
Definition reconcile (line : BillLine.t) (now : datetime) (d : doc Bill.t)
    : doc Bill.t :=
  let d1 := push_line line now d in
  let total := py_sum (map BillLine.amount (Bill.lines (data d1))) in
  set_total_status total (status_rule (Bill.paid (data d1)) total) d1.

(** The update of [create_payment] on the bill it read. *)
Definition apply_payment (amount : float) (now : datetime) (b : doc Bill.t)
    : doc Bill.t :=
  let paid := (Bill.paid (data b) + amount)%float in
  set_paid_status paid (status_rule paid (Bill.total (data b))) now b.

Definition tuition_line (db : Database) (enr : Enrollment.t) : BillLine.t :=
  BillLine.mk (Enrollment.subject_id enr) "Tuition for subject"
    (fee_of db (Enrollment.subject_id enr)).

Definition new_bill (new_bid : oid) (enr : Enrollment.t) : doc Bill.t :=
  mk_doc new_bid
    (Bill.mk (Enrollment.student_id enr) (Enrollment.semester enr) []
       0%float 0%float Unpaid)
    None.

(** The bill an enrollment is charged to: the stored one, or the fresh one. *)
Definition bill_before (db : Database) (new_bid : oid) (enr : Enrollment.t)
    : doc Bill.t :=
  match List.find
          (bill_of (Enrollment.student_id enr) (Enrollment.semester enr))
          (bill db) with
  | Some b => b
  | None => new_bill new_bid enr
  end.

(** ** Requests that reconcile a bill *)

Inductive request : Type :=
| PostEnrollment (new_eid new_bid : oid) (now : datetime) (enr : Enrollment.t)
| PostPayment (new_pid : oid) (paid_at now : datetime)
    (payload : PaymentCreate.t).

Definition reconciliation_step (req : request) : M string :=
  match req with
  | PostEnrollment new_eid new_bid now enr =>
      create_enrollment new_eid new_bid now enr
  | PostPayment new_pid paid_at now payload =>
      create_payment new_pid paid_at now payload
  end.

(** The bill a request is about: the one of the enrolled student and
    semester, or the one the payment names. *)
Definition bill_of_request (req : request) (db : Database)
    : option (doc Bill.t) :=
  match req with
  | PostEnrollment _ _ _ enr =>
      List.find (bill_of (Enrollment.student_id enr) (Enrollment.semester enr))
        (bill db)
  | PostPayment _ _ _ payload =>
      match ObjectId (PaymentCreate.bill_id payload) with
      | Return o => List.find (by_id o) (bill db)
      | Raise _ => None
      end
  end.

(** ** State predicates *)

Definition unique_ids {A : Type} (l : list (doc A)) : Prop :=
  NoDup (map _id l).

Definition bill_key (d : doc Bill.t) : string * string :=
  (Bill.student_id (data d), Bill.semester (data d)).

(** At most one bill per student and semester. *)
Definition one_bill_per_key (db : Database) : Prop :=
  NoDup (map bill_key (bill db)).

Definition total_is_sum (d : doc Bill.t) : Prop :=
  Bill.total (data d) = py_sum (map BillLine.amount (Bill.lines (data d))).

Definition totals_consistent (db : Database) : Prop :=
  Forall total_is_sum (bill db).

(** The Status Rule as the specification words it, over the comparisons of
    Python floats. *)
Definition StatusRule (paid total : float) (s : BillStatus) : Prop :=
  let fully_paid := (total <=? paid)%float = true /\ (0 <? total)%float = true in
  (s = Paid <-> fully_paid)
  /\ (s = Partial <-> ~ fully_paid /\ (0 <? paid)%float = true)
  /\ (s = Unpaid <-> ~ fully_paid /\ (0 <? paid)%float = false).

Definition status_ok (d : doc Bill.t) : Prop :=
  StatusRule (Bill.paid (data d)) (Bill.total (data d)) (Bill.status (data d)).

(** [reaches db0 db]: [db] is what some sequence of enrollment and payment
    requests, failed ones included, leaves of [db0]. *)
Inductive reaches (db0 : Database) : Database -> Prop :=
| reaches_refl : reaches db0 db0
| reaches_step (req : request) (r : outcome string) (db1 db2 : Database) :
    reaches db0 db1 ->
    reconciliation_step req db1 = (r, db2) ->
    reaches db0 db2.

Definition statuses_consistent (db : Database) : Prop :=
  Forall status_ok (bill db).

(** ** Sample data *)

Definition oid_of_byte (b : byte) : oid :=
  mk_oid [x00; x00; x00; x00; x00; x00; x00; x00; x00; x00; x00; b] eq_refl.

(** A subject of 3 units at 100 per unit, stored under identifier [..01]. *)
Definition cs101 : doc Subject.t :=
  mk_doc (oid_of_byte x01)
    (Subject.mk "CS101" "Programming" 3%float 100%float None) None.

Definition ma201 : doc Subject.t :=
  mk_doc (oid_of_byte x02)
    (Subject.mk "MA201" "Calculus" 4%float 50%float None) None.

Definition catalog : Database := mk_db [cs101; ma201] [] [] [].

Definition ana_cs101 : Enrollment.t :=
  Enrollment.mk "ana" "000000000000000000000001" "2025-1" enrolled.

Definition ana_ma201 : Enrollment.t :=
  Enrollment.mk "ana" "000000000000000000000002" "2025-1" enrolled.

(** An enrollment whose subject identifier is not an ObjectId. *)
Definition ana_unknown : Enrollment.t :=
  Enrollment.mk "ana" "no-such-subject" "2025-1" enrolled.

Definition enroll_ana_cs101 : request :=
  PostEnrollment (oid_of_byte x10) (oid_of_byte x20) 5%N ana_cs101.

Definition enroll_ana_ma201 : request :=
  PostEnrollment (oid_of_byte x11) (oid_of_byte x21) 6%N ana_ma201.

Definition enroll_ana_unknown : request :=
  PostEnrollment (oid_of_byte x10) (oid_of_byte x20) 5%N ana_unknown.

(** The catalog after Ana enrolled in CS101: one bill, [..20], of total 300. *)
Definition after_cs101 : Database :=
  Eval vm_compute in snd (reconciliation_step enroll_ana_cs101 catalog).

Definition pay (amount : float) : request :=
  PostPayment (oid_of_byte x30) 7%N 8%N
    (PaymentCreate.mk "000000000000000000000020" amount "cashier-1").

(** The same enrollment, stored with status [dropped]. *)
Definition dropped_cs101 : Database :=
  mk_db [cs101; ma201]
    [mk_doc (oid_of_byte x10)
       (Enrollment.mk "ana" "000000000000000000000001" "2025-1" dropped) None]
    [] [].

(** The catalog after Ana enrolled in CS101 and then in MA201. *)
Definition after_ma201 : Database :=
  Eval vm_compute in snd (reconciliation_step enroll_ana_ma201 after_cs101).



(** ** main.py: the catalog and the listings *)

(** Modelled from the spec: [get_documents] of [database.py], which is not
    among the sources.  [FindMany(collection, filter)] returns all matches
    in storage order; the filter is the list of its entries, and a document
    matches when it matches every entry. *)
Definition get_documents {A : Type} (c : collection A)
    (filt : list (doc A -> bool)) : M (list (doc A)) :=
  find c (fun d => forallb (fun entry => entry d) filt).

(** The filter entry [{"field": v}] over a string field of the model. *)
Definition field_is {A : Type} (field : A -> string) (v : string)
    (d : doc A) : bool :=
  String.eqb (field (data d)) v.


(** The filter entry [{"status": v}] over bills. *)
Definition status_is (v : string) (d : doc Bill.t) : bool :=
  String.eqb (status_name (Bill.status (data d))) v.

(** [if v: filt[key] = v]: an absent or empty query parameter adds no
    entry. *)
Definition set_if {A : Type} (v : option string)
    (entry : string -> doc A -> bool) (filt : list (doc A -> bool))
    : list (doc A -> bool) :=
  match v with
  | Some (String c s) => filt ++ [entry (String c s)]
  | Some EmptyString => filt
  | None => filt
  end.

(** [d["_id"] = str(d["_id"])] on a document of a model. *)
Definition stringify_id {A : Type} (d : doc A) : string * A :=
  (str (_id d), data d).

(** [POST /subjects]; [new_sid] is the identifier generated for the
    subject. *)
Definition create_subject (new_sid : oid) (subject : Subject.t) : M string :=
  sid <- create_document subject_c new_sid subject ;;
  ret sid.


(** [GET /enrollments]. *)
Definition list_enrollments (student_id subject_id semester : option string)
    : M (list (string * Enrollment.t)) :=
  let filt := [] in
  let filt := set_if student_id (field_is Enrollment.student_id) filt in
  let filt := set_if subject_id (field_is Enrollment.subject_id) filt in
  let filt := set_if semester (field_is Enrollment.semester) filt in
  docs <- get_documents enrollment_c filt ;;
  ret (map stringify_id docs).

(** [GET /bills]. *)
Definition list_bills (student_id status : option string)
    : M (list (string * Bill.t)) :=
  let filt := [] in
  let filt := set_if student_id (field_is Bill.student_id) filt in
  let filt := set_if status status_is filt in
  docs <- get_documents bill_c filt ;;
  ret (map stringify_id docs).

(** ** More state predicates *)

Definition enrollment_key (d : doc Enrollment.t) : string * string * string :=
  (Enrollment.student_id (data d), Enrollment.subject_id (data d),
   Enrollment.semester (data d)).

(** At most one enrollment per (student, subject, semester). *)
Definition one_enrollment_per_triple (db : Database) : Prop :=
  NoDup (map enrollment_key (enrollment db)).

(** The payment records that name the bill [o]: their [bill_id] parses to
    it. *)
Definition names_bill (o : oid) (p : doc Payment.t) : bool :=
  match ObjectId (Payment.bill_id (data p)) with
  | Return o' => oid_eqb o' o
  | Raise _ => false
  end.

Definition payments_of (o : oid) (db : Database) : list float :=
  map (fun p => Payment.amount (data p))
    (List.filter (names_bill o) (payment db)).

(** The ledger: bills have distinct identifiers, every payment record names
    a stored bill, and the [paid] of a bill is the sum, in the order of
    recording, of the amounts of the payments that name it. *)
Definition ledger_consistent (db : Database) : Prop :=
  unique_ids (bill db)
  /\ (forall p, In p (payment db) ->
        exists b, In b (bill db)
                  /\ ObjectId (Payment.bill_id (data p)) = Return (_id b))
  /\ (forall b, In b (bill db) ->
        Bill.paid (data b) = py_sum (payments_of (_id b) db)).

(** A float that is zero or above, or not a number. *)
Definition nonnegative_or_nan (x : float) : Prop :=
  (0 <=? x)%float = true \/ (x =? x)%float = false.

(** ** More sample data *)

(** A catalog whose only subject is stored under the identifier [..ab]. *)
Definition catalog_ab : Database :=
  mk_db
    [mk_doc (oid_of_byte xab)
       (Subject.mk "PH110" "Mechanics" 2%float 75%float (Some "prof-1")) None]
    [] [] [].

Definition ph110 : Subject.t :=
  Subject.mk "PH110" "Mechanics" 2%float 75%float (Some "prof-1").

Definition ana_ph110 : Enrollment.t :=
  Enrollment.mk "ana" "0000000000000000000000ab" "2025-1" enrolled.

(** The items of a listing that answered, none otherwise. *)
Definition fst_items {A : Type} (res : outcome (list A) * Database) : list A :=
  match fst res with
  | Return items => items
  | Raise _ => []
  end.

(** Ana's bill after a payment of 100 and then one of 200. *)
Definition after_100 : Database :=
  Eval vm_compute in snd (reconciliation_step (pay 100%float) after_cs101).

Definition pay_again (amount : float) : request :=
  PostPayment (oid_of_byte x31) 9%N 10%N
    (PaymentCreate.mk "000000000000000000000020" amount "cashier-1").

Definition after_100_200 : Database :=
  Eval vm_compute in snd (reconciliation_step (pay_again 200%float) after_100).

(** ** Users: documents as dictionaries *)

(** The handlers of users work on the documents as Python dictionaries
    (they test, set and delete keys), so a user document is the list of its
    keys and values in insertion order.  These handlers touch the [user]
    collection only: each is a function of that collection. *)
Inductive value : Type :=
| VStr (s : string)
| VBool (b : bool)
| VId (o : oid).

Definition value_eqb (a b : value) : bool :=
  match a, b with
  | VStr x, VStr y => String.eqb x y
  | VBool x, VBool y => Bool.eqb x y
  | VId x, VId y => oid_eqb x y
  | _, _ => false
  end.

Definition dict : Type := list (string * value).

(** [d.get(k)]. *)
Fixpoint dict_get (k : string) (d : dict) : option value :=
  match d with
  | [] => None
  | (k', v) :: rest => if String.eqb k' k then Some v else dict_get k rest
  end.

(** [d[k] = v]: the value of an existing key is replaced in place, a new
    key goes last. *)
Fixpoint dict_set (k : string) (v : value) (d : dict) : dict :=
  match d with
  | [] => [(k, v)]
  | (k', v') :: rest =>
      if String.eqb k' k then (k, v) :: rest else (k', v') :: dict_set k v rest
  end.

(** [del d[k]]. *)
Definition dict_del (k : string) (d : dict) : dict :=
  List.filter (fun kv => negb (String.eqb (fst kv) k)) d.

(** [a | b]. *)
Definition dict_merge (a b : dict) : dict :=
  fold_left (fun acc kv => dict_set (fst kv) (snd kv) acc) b a.

(** [k in d]. *)
Definition dict_has (k : string) (d : dict) : bool :=
  match dict_get k d with
  | Some _ => true
  | None => false
  end.

(** [d.get(k) == v]; a missing key compares as [None], equal to no
    value. *)
Definition get_is (k : string) (v : value) (d : dict) : bool :=
  match dict_get k d with
  | Some x => value_eqb x v
  | None => false
  end.

(** The dictionary the driver returns for a stored document: its [_id] and
    its fields. *)
Definition as_dict (d : doc dict) : dict := ("_id", VId (_id d)) :: data d.

(** The filter entry [{k: v}] over dictionary documents. *)
Definition dict_field_is (k : string) (v : string) (d : doc dict) : bool :=
  get_is k (VStr v) (data d).

(** [d["_id"] = str(d["_id"])] on the dictionary of a stored document. *)
Definition stringify_dict_id (d : doc dict) : dict :=
  dict_set "_id" (VStr (str (_id d))) (as_dict d).

(** Modelled from the spec: [create_document] of [database.py] and
    [get_documents] on one collection, as [create_document] and
    [get_documents] above: a new record under a newly assigned identifier,
    and all matches in storage order. *)
Definition insert_document {A : Type} (new_id : oid) (record : A)
    (l : list (doc A)) : outcome string * list (doc A) :=
  if existsb (by_id new_id) l then (Raise DuplicateKeyError, l)
  else (Return (str new_id), l ++ [mk_doc new_id record None]).

Definition matching {A : Type} (filt : list (doc A -> bool))
    (l : list (doc A)) : list (doc A) :=
  List.filter (fun d => forallb (fun entry => entry d) filt) l.

Module LoginRequest.
Record t : Type := mk {
  email : string;
  password : string
}.
End LoginRequest.

Module UserCreate.
Record t : Type := mk {
  name : string;
  email : string;
  role : string;
  password : string
}.
End UserCreate.

(** [payload.model_dump()]. *)
Definition model_dump (payload : UserCreate.t) : dict :=
  [("name", VStr (UserCreate.name payload));
   ("email", VStr (UserCreate.email payload));
   ("role", VStr (UserCreate.role payload));
   ("password", VStr (UserCreate.password payload))].

(** [POST /auth/login].  [db_truth] is the outcome of the truth test
    [if db] on the driver's database handle, which is the driver's to
    decide: an input.  The handler only reads. *)
Definition login (db_truth : outcome bool) (payload : LoginRequest.t)
    (user : list (doc dict)) : outcome dict :=
  match db_truth with
  | Raise e => Raise e
  | Return truth =>
      let users :=
        if truth
        then List.filter (dict_field_is "email" (LoginRequest.email payload))
               user
        else [] in
      match users with
      | [] => Raise (HTTPException 401 "Invalid credentials")
      | found :: _ =>
          if negb (get_is "password" (VStr (LoginRequest.password payload))
                     (as_dict found))
          then Raise (HTTPException 401 "Invalid credentials")
          else
            Return
              (List.filter (fun kv => negb (String.eqb (fst kv) "password"))
                 (stringify_dict_id found))
      end
  end.

(** [POST /users]; [new_uid] is the identifier generated for the user. *)
Definition create_user (new_uid : oid) (payload : UserCreate.t)
    (user : list (doc dict)) : outcome string * list (doc dict) :=
  match List.find (dict_field_is "email" (UserCreate.email payload)) user with
  | Some _ => (Raise (HTTPException 400 "Email already in use"), user)
  | None =>
      insert_document new_uid
        (dict_merge (model_dump payload) [("is_active", VBool true)]) user
  end.

(** [GET /users].  The handler only reads. *)
Definition list_users (role : option string) (user : list (doc dict))
    : list dict :=
  let filt := set_if role (dict_field_is "role") [] in
  let docs := matching filt user in
  map (fun d =>
         let d := stringify_dict_id d in
         if dict_has "password" d then dict_del "password" d else d)
    docs.

(** No two stored users have the same [email] value. *)
Definition unique_emails (user : list (doc dict)) : Prop :=
  NoDup (map (fun d => dict_get "email" (data d)) user).

(** Sample users. *)
Definition ana_account : UserCreate.t :=
  UserCreate.mk "Ana" "ana@school.test" "student" "s3cret".

Definition one_user : list (doc dict) :=
  Eval vm_compute in snd (create_user (oid_of_byte x40) ana_account []).

(** * Properties *)

(** ** ObjectId: equality and the round trip through [str] *)

Lemma oid_ext (a b : oid) : oid_bytes a = oid_bytes b -> a = b.
Proof.
  destruct a as [xs Hx], b as [ys Hy]; simpl; intros <-.
  f_equal. apply UIP_dec, bool_dec.
Qed.

Lemma oid_eqb_eq (a b : oid) : oid_eqb a b = true <-> a = b.
Proof.
  unfold oid_eqb.
  destruct (list_eq_dec byte_eq_dec (oid_bytes a) (oid_bytes b)) as [E | N].
  - split; auto using oid_ext.
  - split; [discriminate | intros ->; contradiction].
Qed.

Lemma oid_eqb_refl (a : oid) : oid_eqb a a = true.
Proof. now apply oid_eqb_eq. Qed.

Lemma oid_eqb_neq (a b : oid) : oid_eqb a b = false <-> a <> b.
Proof.
  rewrite <- oid_eqb_eq. destruct (oid_eqb a b); split; congruence.
Qed.

Lemma fromhex_byte (b : byte) (s : string) :
  fromhex (hex_of_byte b ++ s)%string =
  match fromhex s with Some bs => Some (b :: bs) | None => None end.
Proof. destruct b; reflexivity. Qed.

Lemma fromhex_hex (bs : list byte) : fromhex (hex bs) = Some bs.
Proof.
  induction bs as [| b rest IH]; [reflexivity |].
  change (hex (b :: rest)) with (hex_of_byte b ++ hex rest)%string.
  now rewrite fromhex_byte, IH.
Qed.

Lemma length_hex (bs : list byte) :
  String.length (hex bs) = 2 * List.length bs.
Proof.
  induction bs as [| b rest IH]; [reflexivity |].
  change (hex (b :: rest))
    with (String (hex_digit (Byte.to_N b / 16))
            (String (hex_digit (Byte.to_N b mod 16)) (hex rest))).
  simpl String.length. rewrite IH. simpl. lia.
Qed.

Lemma ObjectId_str (o : oid) : ObjectId (str o) = Return o.
Proof.
  unfold ObjectId, str. rewrite length_hex, fromhex_hex.
  pose proof (oid_len o) as L.
  replace (Nat.eqb (2 * List.length (oid_bytes o)) 24) with true
    by (apply Nat.eqb_eq in L; symmetry; apply Nat.eqb_eq; lia).
  destruct (bool_dec _ true) as [H | H].
  - f_equal. now apply oid_ext.
  - contradiction.
Qed.

(** [ObjectId] either builds an identifier or raises [InvalidId]. *)
Lemma ObjectId_cases (s : string) :
  (exists o, ObjectId s = Return o) \/ ObjectId s = Raise InvalidId.
Proof.
  unfold ObjectId. destruct (Nat.eqb _ 24); [| now right].
  destruct (fromhex s) as [bs |]; [| now right].
  destruct (bool_dec _ true); [left; eauto | now right].
Qed.

(** A string that is not twenty-four characters long is malformed. *)
Lemma ObjectId_length (s : string) (o : oid) :
  ObjectId s = Return o -> String.length s = 24.
Proof.
  unfold ObjectId. destruct (Nat.eqb (String.length s) 24) eqn:E; [| discriminate].
  intros _. now apply Nat.eqb_eq.
Qed.

(** ** Lists: first match and update of the first match *)

Section FirstMatch.
Context {A : Type}.
Variables (p : A -> bool) (f : A -> A).

Lemma find_update_first (l : list A) :
  (forall d, p d = true -> p (f d) = true) ->
  List.find p (update_first p f l) = option_map f (List.find p l).
Proof.
  intros Hp. induction l as [| d rest IH]; simpl; [reflexivity |].
  destruct (p d) eqn:E; simpl.
  - now rewrite (Hp d E).
  - now rewrite E.
Qed.

Lemma update_first_none (l : list A) :
  List.find p l = None -> update_first p f l = l.
Proof.
  induction l as [| d rest IH]; simpl; [reflexivity |].
  destruct (p d); [discriminate |]. intros H. now rewrite IH.
Qed.

Lemma update_first_twice (g : A -> A) (l : list A) :
  (forall d, p d = true -> p (f d) = true) ->
  update_first p g (update_first p f l) = update_first p (fun d => g (f d)) l.
Proof.
  intros Hp. induction l as [| d rest IH]; simpl; [reflexivity |].
  destruct (p d) eqn:E; simpl.
  - now rewrite (Hp d E).
  - now rewrite E, IH.
Qed.

Lemma update_first_ext (g : A -> A) (l : list A) (b : A) :
  List.find p l = Some b -> f b = g b ->
  update_first p f l = update_first p g l.
Proof.
  induction l as [| d rest IH]; simpl; [discriminate |].
  destruct (p d).
  - intros [= ->] ->. reflexivity.
  - intros H E. now rewrite IH.
Qed.

Lemma update_first_app_last (l : list A) (d : A) :
  List.find p l = None -> p d = true ->
  update_first p f (l ++ [d]) = l ++ [f d].
Proof.
  induction l as [| x rest IH]; simpl.
  - now intros _ ->.
  - destruct (p x); [discriminate |]. intros H E. now rewrite IH.
Qed.

Lemma length_update_first (l : list A) :
  List.length (update_first p f l) = List.length l.
Proof.
  induction l as [| d rest IH]; simpl; [reflexivity |].
  destruct (p d); simpl; auto.
Qed.

Lemma map_update_first {B : Type} (k : A -> B) (l : list A) :
  (forall d, k (f d) = k d) ->
  map k (update_first p f l) = map k l.
Proof.
  intros Hk. induction l as [| d rest IH]; simpl; [reflexivity |].
  destruct (p d); simpl; now rewrite ?Hk, ?IH.
Qed.

(** A document of the updated list is an old one, or the image of the
    first match. *)
Lemma in_update_first (l : list A) (x : A) :
  In x (update_first p f l) ->
  In x l \/ exists b, List.find p l = Some b /\ x = f b.
Proof.
  induction l as [| d rest IH]; simpl; [tauto |].
  destruct (p d); simpl.
  - intros [<- | H]; eauto.
  - intros [<- | H]; [auto |]. destruct (IH H) as [? | ?]; auto.
Qed.

Lemma Forall_update_first (P : A -> Prop) (l : list A) :
  Forall P l ->
  (forall b, List.find p l = Some b -> P (f b)) ->
  Forall P (update_first p f l).
Proof.
  intros HP Hf. apply Forall_forall. intros x Hx.
  destruct (in_update_first l x Hx) as [H | [b [Hb ->]]]; auto.
  rewrite Forall_forall in HP. auto.
Qed.
End FirstMatch.

Lemma find_existsb_false {A : Type} (p : A -> bool) (l : list A) :
  existsb p l = false <-> List.find p l = None.
Proof.
  induction l as [| d rest IH]; simpl; [tauto |].
  destruct (p d); simpl; [split; discriminate | exact IH].
Qed.

Lemma find_app_last {A : Type} (p : A -> bool) (l : list A) (d : A) :
  List.find p l = None -> List.find p (l ++ [d]) = if p d then Some d else None.
Proof.
  induction l as [| x rest IH]; simpl; [reflexivity |].
  destruct (p x); [discriminate | exact IH].
Qed.

Lemma find_app_some {A : Type} (p : A -> bool) (l l' : list A) (b : A) :
  List.find p l = Some b -> List.find p (l ++ l') = Some b.
Proof.
  induction l as [| x rest IH]; simpl; [discriminate |].
  destruct (p x); auto.
Qed.

(** ** One request as a function of the database *)

Lemma subject_fee_run (subject_id : string) (db : Database) :
  subject_fee subject_id db = (Return (fee_of db subject_id), db).
Proof.
  unfold subject_fee, fee_of, try_except, bind, lift, find_one, ret.
  destruct (ObjectId subject_id) as [o | e]; [| reflexivity].
  cbn [docs subject_c].
  destruct (List.find (by_id o) (subject db)); reflexivity.
Qed.

Lemma by_id_true {A : Type} (o : oid) (d : doc A) :
  by_id o d = true <-> _id d = o.
Proof. apply oid_eqb_eq. Qed.

Lemma find_by_id_of_member {A : Type} (l : list (doc A)) (b : doc A) :
  In b l -> exists b', List.find (by_id (_id b)) l = Some b' /\ _id b' = _id b.
Proof.
  intros Hin. destruct (List.find (by_id (_id b)) l) as [b' |] eqn:E.
  - exists b'. split; [reflexivity |].
    apply find_some in E. now apply by_id_true.
  - exfalso. apply (find_none _ _ E) in Hin.
    unfold by_id in Hin. now rewrite oid_eqb_refl in Hin.
Qed.

(** [create_enrollment], one request, as a function of the database. *)
Lemma create_enrollment_run (new_eid new_bid : oid) (now : datetime)
    (enr : Enrollment.t) (db : Database) :
  create_enrollment new_eid new_bid now enr db =
  match List.filter (same_enrollment enr) (enrollment db) with
  | _ :: _ => (Raise (HTTPException 400 "Already enrolled"), db)
  | [] =>
      if existsb (by_id new_eid) (enrollment db)
      then (Raise DuplicateKeyError, db)
      else
        let db1 :=
          with_docs enrollment_c (enrollment db ++ [mk_doc new_eid enr None]) db in
        let line := tuition_line db enr in
        match List.find
                (bill_of (Enrollment.student_id enr) (Enrollment.semester enr))
                (bill db) with
        | Some b =>
            (Return (str new_eid),
             with_docs bill_c
               (update_first (by_id (_id b)) (reconcile line now) (bill db)) db1)
        | None =>
            if existsb (by_id new_bid) (bill db)
            then (Raise DuplicateKeyError, db1)
            else
              (Return (str new_eid),
               with_docs bill_c
                 (bill db ++ [reconcile line now (new_bill new_bid enr)]) db1)
        end
  end.
Proof.
  unfold create_enrollment, bind at 1. unfold find at 1.
  cbn [docs enrollment_c].
  destruct (List.filter (same_enrollment enr) (enrollment db)); [| reflexivity].
  unfold bind at 1. unfold create_document at 1. cbn [docs enrollment_c].
  destruct (existsb (by_id new_eid) (enrollment db)); [reflexivity |].
  unfold bind at 1. rewrite subject_fee_run.
  cbn [with_docs enrollment_c subject].
  change (fee_of _ (Enrollment.subject_id enr))
    with (fee_of db (Enrollment.subject_id enr)).
  unfold bind at 1. unfold find_one at 1. cbn [docs bill_c bill].
  destruct (List.find (bill_of _ _) (bill db)) as [b |] eqn:Efind.
  - apply find_some in Efind. destruct Efind as [Hin _].
    destruct (find_by_id_of_member _ _ Hin) as [b' [Hb' Hid]].
    unfold bind, ret, update_one, find_one.
    cbn [docs with_docs bill_c bill subject enrollment payment].
    rewrite find_update_first, Hb' by (intros d; unfold by_id; auto).
    cbn [option_map _id push_line docs with_docs bill_c bill subject enrollment payment].
    rewrite Hid, update_first_twice by (intros d; unfold by_id; auto).
    f_equal. f_equal.
    apply (update_first_ext _ _ _ _ b' Hb'). reflexivity.
  - unfold bind at 1. unfold bind at 1. unfold create_document at 1.
    cbn [docs with_docs bill_c bill].
    destruct (existsb (by_id new_bid) (bill db)) eqn:Ex; [reflexivity |].
    apply find_existsb_false in Ex.
    unfold bind at 1. unfold lift. rewrite ObjectId_str.
    unfold find_one at 1. cbn [docs with_docs bill_c bill].
    rewrite (find_app_last _ _ _ Ex).
    assert (Hnew : forall x u, by_id new_bid (mk_doc new_bid x u : doc Bill.t) = true)
      by (intros; apply oid_eqb_refl).
    rewrite Hnew.
    unfold bind, ret, update_one, find_one.
    cbn [docs with_docs bill_c bill subject enrollment payment _id].
    rewrite (update_first_app_last _ _ _ _ Ex (Hnew _ _)).
    rewrite (find_app_last _ _ _ Ex).
    unfold push_line at 1. cbn [_id]. rewrite Hnew.
    cbn [_id push_line docs with_docs bill_c bill subject enrollment payment].
    rewrite update_first_app_last by (assumption || apply oid_eqb_refl).
    reflexivity.
Qed.

(** [create_payment], one request, as a function of the database. *)
Lemma create_payment_run (new_pid : oid) (paid_at now : datetime)
    (payload : PaymentCreate.t) (db : Database) :
  create_payment new_pid paid_at now payload db =
  match ObjectId (PaymentCreate.bill_id payload) with
  | Raise e => (Raise e, db)
  | Return o =>
      match List.find (by_id o) (bill db) with
      | None => (Raise (HTTPException 404 "Bill not found"), db)
      | Some b =>
          if existsb (by_id new_pid) (payment db)
          then (Raise DuplicateKeyError, db)
          else
            (Return (str new_pid),
             with_docs bill_c
               (update_first (by_id o)
                  (apply_payment (PaymentCreate.amount payload) now) (bill db))
               (with_docs payment_c
                  (payment db ++
                   [mk_doc new_pid
                      (Payment.mk (PaymentCreate.bill_id payload)
                         (PaymentCreate.amount payload)
                         (PaymentCreate.cashier_id payload) paid_at) None])
                  db))
      end
  end.
Proof.
  unfold create_payment, bind at 1. unfold lift.
  destruct (ObjectId (PaymentCreate.bill_id payload)) as [o | e]; [| reflexivity].
  unfold bind at 1. unfold find_one at 1. cbn [docs bill_c].
  destruct (List.find (by_id o) (bill db)) as [b |] eqn:Efind; [| reflexivity].
  unfold bind at 1. unfold create_document at 1. cbn [docs payment_c].
  destruct (existsb (by_id new_pid) (payment db)); [reflexivity |].
  unfold bind, ret, update_one.
  cbn [docs with_docs bill_c payment_c bill subject enrollment payment].
  assert (Hid : _id b = o) by (apply find_some in Efind; now apply by_id_true).
  rewrite Hid. f_equal. f_equal.
  apply (update_first_ext _ _ _ _ b Efind). reflexivity.
Qed.

(** [get_subject], one request: both failures leave through the handler of
    the [try]. *)
Lemma get_subject_run (subject_id : string) (db : Database) :
  get_subject subject_id db =
  match ObjectId subject_id with
  | Raise _ => (Raise (HTTPException 400 "Invalid subject id"), db)
  | Return o =>
      match List.find (by_id o) (subject db) with
      | None => (Raise (HTTPException 400 "Invalid subject id"), db)
      | Some d => (Return (str (_id d), data d), db)
      end
  end.
Proof.
  unfold get_subject, try_except, bind, lift, find_one, raise, ret.
  destruct (ObjectId subject_id) as [o | e]; [| reflexivity].
  cbn [docs subject_c].
  destruct (List.find (by_id o) (subject db)); reflexivity.
Qed.

(** ** The Status Rule, keys and identifiers *)

Lemma status_rule_spec (paid total : float) :
  StatusRule paid total (status_rule paid total).
Proof.
  unfold StatusRule, status_rule.
  destruct (total <=? paid)%float, (0 <? total)%float, (0 <? paid)%float;
    simpl; repeat split; intros; try discriminate; try tauto;
    try (intros [? ?]; discriminate);
    match goal with
    | H : _ /\ _ |- _ => destruct H as [H1 H2]; try discriminate;
        try (exfalso; apply H1; split; reflexivity)
    end.
Qed.

Lemma bill_of_true (s sem : string) (d : doc Bill.t) :
  bill_of s sem d = true <-> bill_key d = (s, sem).
Proof.
  unfold bill_of, bill_key. rewrite andb_true_iff, !String.eqb_eq.
  split; [intros [-> ->]; reflexivity | intros [= -> ->]; auto].
Qed.

Lemma existsb_by_id {A : Type} (o : oid) (l : list (doc A)) :
  existsb (by_id o) l = false <-> ~ In o (map _id l).
Proof.
  rewrite <- not_true_iff_false, existsb_exists, in_map_iff.
  split; intros H [d Hd]; apply H; exists d.
  - destruct Hd as [<- Hin]. split; [assumption | apply oid_eqb_refl].
  - destruct Hd as [Hin Hd]. apply by_id_true in Hd. auto.
Qed.

Lemma find_by_id_unique {A : Type} (l : list (doc A)) (b : doc A) :
  unique_ids l -> In b l -> List.find (by_id (_id b)) l = Some b.
Proof.
  unfold unique_ids. induction l as [| d rest IH]; simpl; [tauto |].
  intros Hnd [-> | Hin].
  - unfold by_id. now rewrite oid_eqb_refl.
  - inversion Hnd as [| ? ? Hnot Hrest]; subst.
    destruct (by_id (_id b) d) eqn:E.
    + apply by_id_true in E. exfalso. apply Hnot. rewrite E.
      now apply in_map.
    + auto.
Qed.

(** With distinct identifiers, a document of the updated collection is an
    old one under another identifier, or the image of the one updated. *)
Lemma in_update_by_id {A : Type} (o : oid) (f : doc A -> doc A)
    (l : list (doc A)) (x : doc A) :
  unique_ids l ->
  In x (update_first (by_id o) f l) ->
  (In x l /\ _id x <> o)
  \/ exists b, List.find (by_id o) l = Some b /\ x = f b.
Proof.
  unfold unique_ids. induction l as [| d rest IH]; simpl; [tauto |].
  intros Hnd. inversion Hnd as [| ? ? Hnot Hrest]; subst.
  destruct (by_id o d) eqn:E; simpl.
  - apply by_id_true in E. intros [<- | Hin]; [right; eauto |].
    left. split; [auto |]. intros Hx. apply Hnot. rewrite E, <- Hx.
    now apply in_map.
  - intros [<- | Hin].
    + left. split; [auto |]. intros Hx. apply by_id_true in Hx. congruence.
    + destruct (IH Hrest Hin) as [[? ?] | ?]; auto.
Qed.

(** The first match of one filter survives the update of the first match of
    another when both pick the same document. *)
Lemma find_update_other {A : Type} (p q : A -> bool) (f : A -> A)
    (l : list A) (b : A) :
  List.find q l = Some b -> List.find p l = Some b -> q (f b) = true ->
  List.find q (update_first p f l) = Some (f b).
Proof.
  induction l as [| d rest IH]; simpl; [discriminate |].
  destruct (q d) eqn:Eq, (p d) eqn:Ep; simpl.
  - intros [= ->] _ ->. reflexivity.
  - intros [= ->] Hp _. apply find_some in Hp. destruct Hp as [_ Hp]. congruence.
  - intros Hq [= ->]. apply find_some in Hq. destruct Hq as [_ Hq]. congruence.
  - rewrite Eq. auto.
Qed.

(** ** Successful requests *)

Lemma create_enrollment_success (new_eid new_bid : oid) (now : datetime)
    (enr : Enrollment.t) (db db' : Database) (r : string) :
  create_enrollment new_eid new_bid now enr db = (Return r, db') ->
  List.filter (same_enrollment enr) (enrollment db) = []
  /\ r = str new_eid
  /\ ~ In new_eid (map _id (enrollment db))
  /\ subject db' = subject db
  /\ payment db' = payment db
  /\ enrollment db' = enrollment db ++ [mk_doc new_eid enr None]
  /\ ((exists b,
         List.find
           (bill_of (Enrollment.student_id enr) (Enrollment.semester enr))
           (bill db) = Some b
         /\ bill db' =
            update_first (by_id (_id b)) (reconcile (tuition_line db enr) now)
              (bill db))
      \/ (List.find
            (bill_of (Enrollment.student_id enr) (Enrollment.semester enr))
            (bill db) = None
          /\ ~ In new_bid (map _id (bill db))
          /\ bill db' =
             bill db ++ [reconcile (tuition_line db enr) now (new_bill new_bid enr)])).
Proof.
  rewrite create_enrollment_run.
  destruct (List.filter (same_enrollment enr) (enrollment db)); [| discriminate].
  destruct (existsb (by_id new_eid) (enrollment db)) eqn:Ee; [discriminate |].
  apply existsb_by_id in Ee. cbv zeta.
  destruct (List.find (bill_of _ _) (bill db)) as [b |] eqn:Ef.
  - intros [= <- <-]. cbn. repeat split; auto. left. eauto.
  - destruct (existsb (by_id new_bid) (bill db)) eqn:Eb; [discriminate |].
    apply existsb_by_id in Eb.
    intros [= <- <-]. cbn. repeat split; auto.
Qed.

Lemma create_payment_success (new_pid : oid) (paid_at now : datetime)
    (payload : PaymentCreate.t) (db db' : Database) (r : string) :
  create_payment new_pid paid_at now payload db = (Return r, db') ->
  exists o b,
    ObjectId (PaymentCreate.bill_id payload) = Return o
    /\ List.find (by_id o) (bill db) = Some b
    /\ r = str new_pid
    /\ ~ In new_pid (map _id (payment db))
    /\ subject db' = subject db
    /\ enrollment db' = enrollment db
    /\ payment db' =
       payment db ++
       [mk_doc new_pid
          (Payment.mk (PaymentCreate.bill_id payload)
             (PaymentCreate.amount payload)
             (PaymentCreate.cashier_id payload) paid_at) None]
    /\ bill db' =
       update_first (by_id o)
         (apply_payment (PaymentCreate.amount payload) now) (bill db).
Proof.
  rewrite create_payment_run.
  destruct (ObjectId (PaymentCreate.bill_id payload)) as [o | e]; [| discriminate].
  destruct (List.find (by_id o) (bill db)) as [b |] eqn:Ef; [| discriminate].
  destruct (existsb (by_id new_pid) (payment db)) eqn:Ep; [discriminate |].
  apply existsb_by_id in Ep.
  intros [= <- <-]. exists o, b. cbn. repeat split; auto.
Qed.

Lemma reconcile_id (line : BillLine.t) (now : datetime) (d : doc Bill.t) :
  _id (reconcile line now d) = _id d.
Proof. reflexivity. Qed.

Lemma reconcile_key (line : BillLine.t) (now : datetime) (d : doc Bill.t) :
  bill_key (reconcile line now d) = bill_key d.
Proof. reflexivity. Qed.

Lemma apply_payment_id (amount : float) (now : datetime) (d : doc Bill.t) :
  _id (apply_payment amount now d) = _id d.
Proof. reflexivity. Qed.

Lemma apply_payment_key (amount : float) (now : datetime) (d : doc Bill.t) :
  bill_key (apply_payment amount now d) = bill_key d.
Proof. reflexivity. Qed.

Lemma new_bill_key (new_bid : oid) (enr : Enrollment.t) :
  bill_key (new_bill new_bid enr) =
  (Enrollment.student_id enr, Enrollment.semester enr).
Proof. reflexivity. Qed.

(** After a successful enrollment the bill of the student and semester is
    the reconciled one. *)
Lemma enrollment_bill_after (new_eid new_bid : oid) (now : datetime)
    (enr : Enrollment.t) (db db' : Database) (r : string) :
  unique_ids (bill db) ->
  create_enrollment new_eid new_bid now enr db = (Return r, db') ->
  List.find (bill_of (Enrollment.student_id enr) (Enrollment.semester enr))
    (bill db') =
  Some (reconcile (tuition_line db enr) now (bill_before db new_bid enr)).
Proof.
  intros Hu Hrun. apply create_enrollment_success in Hrun.
  destruct Hrun as (_ & _ & _ & _ & _ & _ & [(b & Hb & ->) | (Hb & _ & ->)]);
    unfold bill_before; rewrite Hb.
  - apply find_update_other; [assumption | |].
    + apply find_by_id_unique; [assumption |]. now apply find_some in Hb.
    + apply bill_of_true. rewrite reconcile_key. apply bill_of_true.
      now apply find_some in Hb.
  - rewrite (find_app_last _ _ _ Hb).
    replace (bill_of _ _ _) with true; [reflexivity |].
    symmetry. apply bill_of_true. now rewrite reconcile_key.
Qed.

(** After a successful payment the bill the payment names is the snapshot
    with the payment applied. *)
Lemma payment_bill_after (new_pid : oid) (paid_at now : datetime)
    (payload : PaymentCreate.t) (db db' : Database) (r : string) :
  create_payment new_pid paid_at now payload db = (Return r, db') ->
  exists o b,
    ObjectId (PaymentCreate.bill_id payload) = Return o
    /\ List.find (by_id o) (bill db) = Some b
    /\ List.find (by_id o) (bill db') =
       Some (apply_payment (PaymentCreate.amount payload) now b).
Proof.
  intros Hrun. apply create_payment_success in Hrun.
  destruct Hrun as (o & b & Ho & Hb & _ & _ & _ & _ & _ & ->).
  exists o, b. repeat split; auto.
  rewrite find_update_first, Hb; [reflexivity |].
  intros d. unfold by_id. now rewrite apply_payment_id.
Qed.

Lemma reconcile_status_ok (line : BillLine.t) (now : datetime) (d : doc Bill.t) :
  status_ok (reconcile line now d).
Proof. apply status_rule_spec. Qed.

Lemma apply_payment_status_ok (amount : float) (now : datetime) (d : doc Bill.t) :
  status_ok (apply_payment amount now d).
Proof. apply status_rule_spec. Qed.

Lemma reconcile_total (line : BillLine.t) (now : datetime) (d : doc Bill.t) :
  total_is_sum (reconcile line now d).
Proof. reflexivity. Qed.

(** ** Floats: comparing with zero *)

Lemma float_zero_not_positive (x : float) :
  (x =? 0)%float = true -> (0 <? x)%float = false.
Proof.
  rewrite FloatAxioms.eqb_spec, FloatAxioms.ltb_spec.
  change (FloatOps.Prim2SF 0) with (SpecFloat.S754_zero false).
  destruct (FloatOps.Prim2SF x) as [s | s | | s m e]; simpl; try discriminate;
    try reflexivity; destruct s; discriminate.
Qed.

Lemma StatusRule_zero (paid total : float) (s : BillStatus) :
  StatusRule paid total s ->
  (total =? 0)%float = true -> (paid =? 0)%float = true -> s = Unpaid.
Proof.
  intros (_ & _ & Hu) Ht Hp. apply Hu.
  apply float_zero_not_positive in Ht, Hp. split; [| assumption].
  intros [_ H]. congruence.
Qed.

(** ** C1: the status of a reconciled bill *)

(** C1. After every successful reconciliation step ([create_enrollment] or
    [create_payment]) the bill of the request is stored with a status that
    satisfies the Status Rule for its stored [paid] and [total]: "paid" iff
    [paid >= total] and [total > 0], else "partial" iff [paid > 0], else
    "unpaid".  In particular a bill with [total == 0] and [paid == 0] is
    "unpaid". *)
Theorem status_rule_after_reconciliation (req : request) (db db' : Database)
    (r : string) :
  unique_ids (bill db) ->
  reconciliation_step req db = (Return r, db') ->
  exists b,
    bill_of_request req db' = Some b
    /\ status_ok b
    /\ ((Bill.total (data b) =? 0)%float = true ->
        (Bill.paid (data b) =? 0)%float = true ->
        Bill.status (data b) = Unpaid).
Proof.
  intros Hu Hrun. destruct req as [new_eid new_bid now enr | new_pid paid_at now payload];
    simpl in Hrun.
  - pose proof (reconcile_status_ok (tuition_line db enr) now
                  (bill_before db new_bid enr)) as Hs.
    eexists. split; [exact (enrollment_bill_after _ _ _ _ _ _ _ Hu Hrun) |].
    split; [exact Hs | exact (StatusRule_zero _ _ _ Hs)].
  - destruct (payment_bill_after _ _ _ _ _ _ _ Hrun) as (o & b & Ho & _ & Hb').
    pose proof (apply_payment_status_ok (PaymentCreate.amount payload) now b)
      as Hs.
    exists (apply_payment (PaymentCreate.amount payload) now b).
    simpl. rewrite Ho. split; [exact Hb' |].
    split; [exact Hs | exact (StatusRule_zero _ _ _ Hs)].
Qed.

(** An enrollment in a subject that does not resolve: the new bill has
    [total = 0], [paid = 0] and status "unpaid". *)
Lemma status_rule_after_reconciliation_witness :
  unique_ids (bill catalog)
  /\ reconciliation_step enroll_ana_unknown catalog =
     (Return "000000000000000000000010",
      snd (reconciliation_step enroll_ana_unknown catalog))
  /\ exists b,
       bill_of_request enroll_ana_unknown
         (snd (reconciliation_step enroll_ana_unknown catalog)) = Some b
       /\ status_ok b
       /\ ((Bill.total (data b) =? 0)%float = true ->
           (Bill.paid (data b) =? 0)%float = true ->
           Bill.status (data b) = Unpaid).
Proof.
  assert (Hu : unique_ids (bill catalog)) by constructor.
  assert (Hrun : reconciliation_step enroll_ana_unknown catalog =
                 (Return "000000000000000000000010",
                  snd (reconciliation_step enroll_ana_unknown catalog)))
    by (vm_compute; reflexivity).
  split; [exact Hu |]. split; [exact Hrun |].
  exact (status_rule_after_reconciliation _ _ _ _ Hu Hrun).
Defined.

(** ** C2: the total of a bill is the sum of its lines *)

Lemma apply_payment_total (amount : float) (now : datetime) (d : doc Bill.t) :
  total_is_sum d -> total_is_sum (apply_payment amount now d).
Proof. exact (fun H => H). Qed.

(** Every request, whatever its outcome, keeps the totals consistent. *)
Lemma step_keeps_totals (req : request) (db db' : Database)
    (r : outcome string) :
  totals_consistent db ->
  reconciliation_step req db = (r, db') ->
  totals_consistent db'.
Proof.
  unfold totals_consistent. intros Hc.
  destruct req as [new_eid new_bid now enr | new_pid paid_at now payload]; simpl.
  - rewrite create_enrollment_run.
    destruct (List.filter _ _); [| now intros [= _ <-]].
    destruct (existsb _ (enrollment db)); [now intros [= _ <-] |].
    cbv zeta. destruct (List.find _ (bill db)) as [b |].
    + intros [= _ <-]. cbn.
      apply Forall_update_first; [assumption |].
      intros; apply reconcile_total.
    + destruct (existsb _ (bill db)); intros [= _ <-]; cbn; [assumption |].
      apply Forall_app. split; [assumption |].
      constructor; [apply reconcile_total | constructor].
  - rewrite create_payment_run.
    destruct (ObjectId _) as [o | e]; [| now intros [= _ <-]].
    destruct (List.find _ (bill db)) as [b |] eqn:Ef; [| now intros [= _ <-]].
    destruct (existsb _ (payment db)); intros [= _ <-]; cbn; [assumption |].
    apply Forall_update_first; [assumption |].
    intros b0 Hb0. apply apply_payment_total.
    apply find_some in Hb0. rewrite Forall_forall in Hc. now apply Hc.
Qed.

(** An enrollment leaves the bill it charged with [total] equal to the sum
    of its stored lines, whatever the bill held before. *)
Lemma enrollment_sets_total (new_eid new_bid : oid) (now : datetime)
    (enr : Enrollment.t) (db db' : Database) (r : string) :
  unique_ids (bill db) ->
  create_enrollment new_eid new_bid now enr db = (Return r, db') ->
  exists b,
    List.find (bill_of (Enrollment.student_id enr) (Enrollment.semester enr))
      (bill db') = Some b
    /\ total_is_sum b.
Proof.
  intros Hu Hrun. eexists.
  split; [exact (enrollment_bill_after _ _ _ _ _ _ _ Hu Hrun) |].
  apply reconcile_total.
Qed.

(** C2. For every bill, after any successful reconciliation step
    ([create_enrollment] or [create_payment]) the bill's [total] equals the
    sum of the [amount] fields of its lines: the step keeps the property for
    all stored bills. *)
Theorem total_equals_sum_of_lines (req : request) (db db' : Database)
    (r : string) :
  totals_consistent db ->
  reconciliation_step req db = (Return r, db') ->
  forall b, In b (bill db') ->
    Bill.total (data b) = py_sum (map BillLine.amount (Bill.lines (data b))).
Proof.
  intros Hc Hrun b Hb.
  pose proof (step_keeps_totals _ _ _ _ Hc Hrun) as Hc'.
  unfold totals_consistent in Hc'. rewrite Forall_forall in Hc'.
  exact (Hc' b Hb).
Qed.

(** Ana's second enrollment: her bill holds two lines, 300 and 200, and its
    total is their sum. *)
Lemma total_equals_sum_of_lines_witness :
  totals_consistent after_cs101
  /\ reconciliation_step enroll_ana_ma201 after_cs101 =
     (Return "000000000000000000000011",
      snd (reconciliation_step enroll_ana_ma201 after_cs101))
  /\ forall b,
       In b (bill (snd (reconciliation_step enroll_ana_ma201 after_cs101))) ->
       Bill.total (data b) = py_sum (map BillLine.amount (Bill.lines (data b))).
Proof.
  assert (Hc : totals_consistent after_cs101)
    by (repeat constructor).
  assert (Hrun : reconciliation_step enroll_ana_ma201 after_cs101 =
                 (Return "000000000000000000000011",
                  snd (reconciliation_step enroll_ana_ma201 after_cs101)))
    by (vm_compute; reflexivity).
  split; [exact Hc |]. split; [exact Hrun |].
  exact (total_equals_sum_of_lines _ _ _ _ Hc Hrun).
Defined.

(** ** C3 and C10: duplicate enrollments *)

Lemma same_enrollment_true (enr : Enrollment.t) (d : doc Enrollment.t) :
  same_enrollment enr d = true <->
  Enrollment.student_id (data d) = Enrollment.student_id enr
  /\ Enrollment.subject_id (data d) = Enrollment.subject_id enr
  /\ Enrollment.semester (data d) = Enrollment.semester enr.
Proof.
  unfold same_enrollment. rewrite !andb_true_iff, !String.eqb_eq. tauto.
Qed.

Lemma create_enrollment_existing (new_eid new_bid : oid) (now : datetime)
    (enr : Enrollment.t) (db : Database) (d : doc Enrollment.t) :
  In d (enrollment db) -> same_enrollment enr d = true ->
  create_enrollment new_eid new_bid now enr db =
  (Raise (HTTPException 400 "Already enrolled"), db).
Proof.
  intros Hin Hsame. rewrite create_enrollment_run.
  destruct (List.filter (same_enrollment enr) (enrollment db)) eqn:E;
    [| reflexivity].
  assert (H : In d []) by (rewrite <- E; apply filter_In; auto).
  destruct H.
Qed.

(** C3. An enrollment request whose (student, subject, semester) triple
    already has an enrollment record fails with 400 "Already enrolled" and
    leaves the whole database as it was: no enrollment is persisted and no
    bill is touched. *)
Theorem duplicate_enrollment_rejected (new_eid new_bid : oid) (now : datetime)
    (enr : Enrollment.t) (db : Database) (d : doc Enrollment.t) :
  In d (enrollment db) ->
  Enrollment.student_id (data d) = Enrollment.student_id enr ->
  Enrollment.subject_id (data d) = Enrollment.subject_id enr ->
  Enrollment.semester (data d) = Enrollment.semester enr ->
  create_enrollment new_eid new_bid now enr db =
    (Raise (HTTPException 400 "Already enrolled"), db)
  /\ http_status (fst (create_enrollment new_eid new_bid now enr db)) = 400
  /\ enrollment (snd (create_enrollment new_eid new_bid now enr db)) =
     enrollment db
  /\ bill (snd (create_enrollment new_eid new_bid now enr db)) = bill db.
Proof.
  intros Hin H1 H2 H3.
  assert (Hsame : same_enrollment enr d = true)
    by (apply same_enrollment_true; auto).
  rewrite (create_enrollment_existing _ _ _ _ _ _ Hin Hsame). auto.
Qed.

(** Ana enrolls in CS101 a second time. *)
Lemma duplicate_enrollment_rejected_witness :
  create_enrollment (oid_of_byte x11) (oid_of_byte x21) 6%N ana_cs101
    after_cs101 =
    (Raise (HTTPException 400 "Already enrolled"), after_cs101)
  /\ http_status
       (fst (create_enrollment (oid_of_byte x11) (oid_of_byte x21) 6%N
               ana_cs101 after_cs101)) = 400
  /\ enrollment
       (snd (create_enrollment (oid_of_byte x11) (oid_of_byte x21) 6%N
               ana_cs101 after_cs101)) = enrollment after_cs101
  /\ bill
       (snd (create_enrollment (oid_of_byte x11) (oid_of_byte x21) 6%N
               ana_cs101 after_cs101)) = bill after_cs101.
Proof.
  apply (duplicate_enrollment_rejected (oid_of_byte x11) (oid_of_byte x21) 6%N
           ana_cs101 after_cs101
           (mk_doc (oid_of_byte x10) ana_cs101 None)).
  - simpl. left. reflexivity.
  - reflexivity.
  - reflexivity.
  - reflexivity.
Defined.

(** C10. The duplicate check matches on (student, subject, semester) only:
    an existing enrollment whose status is "dropped" or "completed" still
    makes a new enrollment for the same triple fail with 400 "Already
    enrolled", and the filter gives the same answer whatever the stored
    status. *)
Theorem duplicate_check_ignores_status (new_eid new_bid : oid) (now : datetime)
    (enr : Enrollment.t) (db : Database) (d : doc Enrollment.t) :
  In d (enrollment db) ->
  Enrollment.student_id (data d) = Enrollment.student_id enr ->
  Enrollment.subject_id (data d) = Enrollment.subject_id enr ->
  Enrollment.semester (data d) = Enrollment.semester enr ->
  Enrollment.status (data d) = dropped
  \/ Enrollment.status (data d) = completed ->
  create_enrollment new_eid new_bid now enr db =
    (Raise (HTTPException 400 "Already enrolled"), db)
  /\ forall st,
       same_enrollment enr
         (mk_doc (_id d)
            (Enrollment.mk (Enrollment.student_id (data d))
               (Enrollment.subject_id (data d)) (Enrollment.semester (data d))
               st)
            (updated_at d)) = true.
Proof.
  intros Hin H1 H2 H3 _. split.
  - apply (create_enrollment_existing _ _ _ _ _ d Hin).
    apply same_enrollment_true; auto.
  - intros st. apply same_enrollment_true; auto.
Qed.

(** Ana dropped CS101 and asks to enroll in it again, same semester. *)
Lemma duplicate_check_ignores_status_witness :
  create_enrollment (oid_of_byte x11) (oid_of_byte x21) 6%N ana_cs101
    dropped_cs101 =
    (Raise (HTTPException 400 "Already enrolled"), dropped_cs101)
  /\ forall st,
       same_enrollment ana_cs101
         (mk_doc (oid_of_byte x10)
            (Enrollment.mk "ana" "000000000000000000000001" "2025-1" st)
            None) = true.
Proof.
  apply (duplicate_check_ignores_status (oid_of_byte x11) (oid_of_byte x21)
           6%N ana_cs101 dropped_cs101
           (mk_doc (oid_of_byte x10)
              (Enrollment.mk "ana" "000000000000000000000001" "2025-1" dropped)
              None)).
  - simpl. left. reflexivity.
  - reflexivity.
  - reflexivity.
  - reflexivity.
  - left. reflexivity.
Defined.

(** ** C4: what a payment writes *)

(** C4. [create_payment] sets the bill's [paid] to the [paid] of the bill as
    read before the payment record was stored plus the payment's amount, and
    its status to the one the Status Rule gives for that sum and the [total]
    of the same snapshot; [total] and the lines stay as they were. *)
Theorem payment_updates_paid_from_snapshot (new_pid : oid)
    (paid_at now : datetime) (payload : PaymentCreate.t) (db db' : Database)
    (r : string) :
  create_payment new_pid paid_at now payload db = (Return r, db') ->
  exists o snapshot b',
    ObjectId (PaymentCreate.bill_id payload) = Return o
    /\ List.find (by_id o) (bill db) = Some snapshot
    /\ List.find (by_id o) (bill db') = Some b'
    /\ Bill.paid (data b') =
       (Bill.paid (data snapshot) + PaymentCreate.amount payload)%float
    /\ StatusRule
         (Bill.paid (data snapshot) + PaymentCreate.amount payload)%float
         (Bill.total (data snapshot))
         (Bill.status (data b'))
    /\ Bill.total (data b') = Bill.total (data snapshot)
    /\ Bill.lines (data b') = Bill.lines (data snapshot).
Proof.
  intros Hrun.
  destruct (payment_bill_after _ _ _ _ _ _ _ Hrun) as (o & b & Ho & Hb & Hb').
  exists o, b, (apply_payment (PaymentCreate.amount payload) now b).
  split; [exact Ho |]. split; [exact Hb |]. split; [exact Hb' |].
  split; [reflexivity |].
  split; [exact (apply_payment_status_ok _ now b) |].
  split; reflexivity.
Qed.

(** A payment of 300 against Ana's bill of total 300 and paid 0: the bill is
    stored with [paid = 300] and status "paid". *)
Lemma payment_updates_paid_from_snapshot_witness :
  reconciliation_step (pay 300%float) after_cs101 =
    (Return "000000000000000000000030",
     snd (reconciliation_step (pay 300%float) after_cs101))
  /\ exists b',
       List.find (by_id (oid_of_byte x20))
         (bill (snd (reconciliation_step (pay 300%float) after_cs101))) =
       Some b'
       /\ Bill.paid (data b') = 300%float
       /\ Bill.status (data b') = Paid
       /\ Bill.total (data b') = 300%float.
Proof.
  assert (Hrun : reconciliation_step (pay 300%float) after_cs101 =
                 (Return "000000000000000000000030",
                  snd (reconciliation_step (pay 300%float) after_cs101)))
    by (vm_compute; reflexivity).
  split; [exact Hrun |].
  destruct (payment_updates_paid_from_snapshot _ _ _ _ _ _ _ Hrun)
    as (o & snapshot & b' & Ho & Hs & Hb' & Hpaid & Hstatus & Htotal & _).
  change (ObjectId (PaymentCreate.bill_id _))
    with (Return (oid_of_byte x20)) in Ho.
  injection Ho as <-.
  cbv in Hs. injection Hs as <-.
  exists b'. split; [exact Hb' |].
  rewrite Hpaid, Htotal. split; [reflexivity |]. split; [| reflexivity].
  apply (proj1 Hstatus). split; reflexivity.
Defined.

(** ** C5: the fee of an enrollment *)

(** C5. An enrollment with no earlier record for its triple succeeds whether
    or not its subject resolves: the enrollment is stored and one line is
    appended to the bill of the student and semester.  The line's amount is
    0 when [subject_id] is malformed or matches no subject, and
    [units * fee_per_unit] of the subject it matches otherwise. *)
Theorem enrollment_line_amount (new_eid new_bid : oid) (now : datetime)
    (enr : Enrollment.t) (db : Database) :
  unique_ids (bill db) ->
  List.filter (same_enrollment enr) (enrollment db) = [] ->
  ~ In new_eid (map _id (enrollment db)) ->
  ~ In new_bid (map _id (bill db)) ->
  exists db' b fee,
    create_enrollment new_eid new_bid now enr db = (Return (str new_eid), db')
    /\ In (mk_doc new_eid enr None) (enrollment db')
    /\ List.find
         (bill_of (Enrollment.student_id enr) (Enrollment.semester enr))
         (bill db') = Some b
    /\ Bill.lines (data b) =
       Bill.lines (data (bill_before db new_bid enr)) ++
       [BillLine.mk (Enrollment.subject_id enr) "Tuition for subject" fee]
    /\ (ObjectId (Enrollment.subject_id enr) = Raise InvalidId ->
        fee = 0%float)
    /\ (forall o,
          ObjectId (Enrollment.subject_id enr) = Return o ->
          List.find (by_id o) (subject db) = None -> fee = 0%float)
    /\ (forall o s,
          ObjectId (Enrollment.subject_id enr) = Return o ->
          List.find (by_id o) (subject db) = Some s ->
          fee =
          (Subject.units (data s) * Subject.fee_per_unit (data s))%float).
Proof.
  intros Hu Hdup Heid Hbid.
  apply existsb_by_id in Heid. apply existsb_by_id in Hbid.
  destruct (create_enrollment new_eid new_bid now enr db) as [r db'] eqn:Hrun.
  assert (Hr : r = Return (str new_eid)).
  { rewrite create_enrollment_run, Hdup, Heid in Hrun. cbv zeta in Hrun.
    destruct (List.find _ (bill db)); [now inversion Hrun |].
    rewrite Hbid in Hrun. now inversion Hrun. }
  subst r.
  exists db', (reconcile (tuition_line db enr) now (bill_before db new_bid enr)),
    (fee_of db (Enrollment.subject_id enr)).
  split; [reflexivity |].
  split.
  { apply create_enrollment_success in Hrun.
    destruct Hrun as (_ & _ & _ & _ & _ & -> & _).
    apply in_or_app. right. now left. }
  split; [exact (enrollment_bill_after _ _ _ _ _ _ _ Hu Hrun) |].
  split; [reflexivity |].
  unfold fee_of. repeat split.
  - intros ->. reflexivity.
  - intros o -> ->. reflexivity.
  - intros o s -> ->. reflexivity.
Qed.

(** Ana enrolls in a subject whose identifier is malformed: the enrollment
    is stored and her bill gets one line of amount 0. *)
Lemma enrollment_line_amount_witness :
  exists db' b fee,
    create_enrollment (oid_of_byte x10) (oid_of_byte x20) 5%N ana_unknown
      catalog = (Return "000000000000000000000010", db')
    /\ In (mk_doc (oid_of_byte x10) ana_unknown None) (enrollment db')
    /\ List.find (bill_of "ana" "2025-1") (bill db') = Some b
    /\ Bill.lines (data b) =
       [] ++ [BillLine.mk "no-such-subject" "Tuition for subject" fee]
    /\ (ObjectId "no-such-subject" = Raise InvalidId -> fee = 0%float)
    /\ (forall o,
          ObjectId "no-such-subject" = Return o ->
          List.find (by_id o) (subject catalog) = None -> fee = 0%float)
    /\ (forall o s,
          ObjectId "no-such-subject" = Return o ->
          List.find (by_id o) (subject catalog) = Some s ->
          fee =
          (Subject.units (data s) * Subject.fee_per_unit (data s))%float).
Proof.
  apply (enrollment_line_amount (oid_of_byte x10) (oid_of_byte x20) 5%N
           ana_unknown catalog).
  - constructor.
  - reflexivity.
  - simpl. tauto.
  - simpl. tauto.
Defined.

(** ** C6: one bill per student and semester *)

Lemma filter_single {A K : Type} (k : A -> K) (key : K) (p : A -> bool)
    (l : list A) (b : A) :
  (forall d, p d = true <-> k d = key) ->
  NoDup (map k l) -> List.find p l = Some b -> List.filter p l = [b].
Proof.
  intros Hp. induction l as [| d rest IH]; simpl; [discriminate |].
  intros Hnd. inversion Hnd as [| ? ? Hnot Hrest]; subst.
  destruct (p d) eqn:E.
  - intros [= ->]. f_equal.
    destruct (List.filter p rest) as [| x xs] eqn:Ef; [reflexivity |].
    assert (Hx : In x (List.filter p rest)) by (rewrite Ef; now left).
    apply filter_In in Hx. destruct Hx as [Hin Hpx].
    exfalso. apply Hnot.
    apply Hp in E. apply Hp in Hpx. rewrite E, <- Hpx. now apply in_map.
  - auto.
Qed.

Lemma enrollment_keeps_bills (new_eid new_bid : oid) (now : datetime)
    (enr : Enrollment.t) (db db' : Database) (r : outcome string) :
  create_enrollment new_eid new_bid now enr db = (r, db') ->
  bill db' = bill db
  \/ (exists b,
        List.find
          (bill_of (Enrollment.student_id enr) (Enrollment.semester enr))
          (bill db) = Some b
        /\ bill db' =
           update_first (by_id (_id b)) (reconcile (tuition_line db enr) now)
             (bill db))
  \/ (List.find
        (bill_of (Enrollment.student_id enr) (Enrollment.semester enr))
        (bill db) = None
      /\ ~ In new_bid (map _id (bill db))
      /\ bill db' =
         bill db ++ [reconcile (tuition_line db enr) now (new_bill new_bid enr)]).
Proof.
  rewrite create_enrollment_run.
  destruct (List.filter _ _); [| intros [= _ <-]; now left].
  destruct (existsb _ (enrollment db)); [intros [= _ <-]; now left |].
  cbv zeta. destruct (List.find _ (bill db)) as [b |] eqn:Ef.
  - intros [= _ <-]. right. left. exists b. auto.
  - destruct (existsb _ (bill db)) eqn:Eb; intros [= _ <-]; [now left |].
    right. right. apply existsb_by_id in Eb. auto.
Qed.

Lemma payment_keeps_bills (new_pid : oid) (paid_at now : datetime)
    (payload : PaymentCreate.t) (db db' : Database) (r : outcome string) :
  create_payment new_pid paid_at now payload db = (r, db') ->
  bill db' = bill db
  \/ exists o,
       bill db' =
       update_first (by_id o)
         (apply_payment (PaymentCreate.amount payload) now) (bill db).
Proof.
  rewrite create_payment_run.
  destruct (ObjectId _) as [o | e]; [| intros [= _ <-]; now left].
  destruct (List.find _ (bill db)); [| intros [= _ <-]; now left].
  destruct (existsb _ (payment db)); intros [= _ <-]; [now left |].
  right. exists o. reflexivity.
Qed.

Lemma NoDup_app_one {K : Type} (l : list K) (x : K) :
  NoDup l -> ~ In x l -> NoDup (l ++ [x]).
Proof.
  intros Hl Hx. apply NoDup_app; [assumption | repeat constructor; auto |].
  intros y Hy [<- | []]. contradiction.
Qed.

(** Every request, whatever its outcome, keeps the identifiers of the bills
    distinct and at most one bill per student and semester. *)
Lemma step_keeps_unique_ids (req : request) (db db' : Database)
    (r : outcome string) :
  unique_ids (bill db) ->
  reconciliation_step req db = (r, db') ->
  unique_ids (bill db').
Proof.
  unfold unique_ids. intros Hu.
  destruct req as [new_eid new_bid now enr | new_pid paid_at now payload];
    simpl; intros Hrun.
  - destruct (enrollment_keeps_bills _ _ _ _ _ _ _ Hrun)
      as [-> | [(b & _ & ->) | (_ & Hnew & ->)]]; [assumption | |].
    + now rewrite map_update_first by reflexivity.
    + rewrite map_app. simpl. now apply NoDup_app_one.
  - destruct (payment_keeps_bills _ _ _ _ _ _ _ Hrun) as [-> | [o ->]];
      [assumption |].
    now rewrite map_update_first by reflexivity.
Qed.

Lemma step_keeps_one_bill_per_key (req : request) (db db' : Database)
    (r : outcome string) :
  one_bill_per_key db ->
  reconciliation_step req db = (r, db') ->
  one_bill_per_key db'.
Proof.
  unfold one_bill_per_key. intros Hu.
  destruct req as [new_eid new_bid now enr | new_pid paid_at now payload];
    simpl; intros Hrun.
  - destruct (enrollment_keeps_bills _ _ _ _ _ _ _ Hrun)
      as [-> | [(b & _ & ->) | (Hnone & _ & ->)]]; [assumption | |].
    + now rewrite map_update_first by reflexivity.
    + rewrite map_app. simpl. apply NoDup_app_one; [assumption |].
      rewrite in_map_iff. intros (d & Hk & Hin).
      apply (find_none _ _ Hnone) in Hin.
      rewrite reconcile_key, new_bill_key in Hk.
      apply bill_of_true in Hk. congruence.
  - destruct (payment_keeps_bills _ _ _ _ _ _ _ Hrun) as [-> | [o ->]];
      [assumption |].
    now rewrite map_update_first by reflexivity.
Qed.

(** C6. At most one bill exists per (student, semester): a successful
    enrollment keeps that, creating a bill only when the pair has none.  Two
    enrollments in a row of one student in one semester end with exactly one
    bill for the pair, holding the lines it had before and the two new
    lines; a pair that had no bill has one bill with two lines. *)
Theorem one_bill_per_student_semester
    (new_eid1 new_bid1 new_eid2 new_bid2 : oid) (now1 now2 : datetime)
    (enr1 enr2 : Enrollment.t) (db db1 db2 : Database) (r1 r2 : string) :
  unique_ids (bill db) ->
  one_bill_per_key db ->
  Enrollment.student_id enr2 = Enrollment.student_id enr1 ->
  Enrollment.semester enr2 = Enrollment.semester enr1 ->
  create_enrollment new_eid1 new_bid1 now1 enr1 db = (Return r1, db1) ->
  create_enrollment new_eid2 new_bid2 now2 enr2 db1 = (Return r2, db2) ->
  one_bill_per_key db1
  /\ one_bill_per_key db2
  /\ List.length (bill db2) =
     match List.find
             (bill_of (Enrollment.student_id enr1) (Enrollment.semester enr1))
             (bill db) with
     | Some _ => List.length (bill db)
     | None => S (List.length (bill db))
     end
  /\ exists b,
       List.filter
         (bill_of (Enrollment.student_id enr1) (Enrollment.semester enr1))
         (bill db2) = [b]
       /\ Bill.lines (data b) =
          Bill.lines (data (bill_before db new_bid1 enr1)) ++
          [tuition_line db enr1; tuition_line db1 enr2]
       /\ (List.find
             (bill_of (Enrollment.student_id enr1) (Enrollment.semester enr1))
             (bill db) = None ->
           List.length (Bill.lines (data b)) = 2).
Proof.
  intros Hu Hk Hs Hm Hrun1 Hrun2.
  pose proof (step_keeps_unique_ids (PostEnrollment _ _ _ _) _ _ _ Hu Hrun1)
    as Hu1.
  pose proof (step_keeps_one_bill_per_key (PostEnrollment _ _ _ _) _ _ _ Hk Hrun1)
    as Hk1.
  pose proof (step_keeps_one_bill_per_key (PostEnrollment _ _ _ _) _ _ _ Hk1 Hrun2)
    as Hk2.
  pose proof (enrollment_bill_after _ _ _ _ _ _ _ Hu Hrun1) as Hb1.
  pose proof (enrollment_bill_after _ _ _ _ _ _ _ Hu1 Hrun2) as Hb2.
  rewrite Hs, Hm in Hb2.
  assert (Hbefore : bill_before db1 new_bid2 enr2 =
                    reconcile (tuition_line db enr1) now1
                      (bill_before db new_bid1 enr1))
    by (unfold bill_before at 1; now rewrite Hs, Hm, Hb1).
  rewrite Hbefore in Hb2.
  split; [assumption |]. split; [assumption |]. split.
  - apply create_enrollment_success in Hrun1, Hrun2.
    destruct Hrun2 as (_ & _ & _ & _ & _ & _ & [(b & Hb & ->) | (Hb & _ & _)]).
    2:{ rewrite Hs, Hm in Hb. congruence. }
    rewrite length_update_first.
    destruct Hrun1 as (_ & _ & _ & _ & _ & _ & [(b0 & Hb0 & ->) | (Hb0 & _ & ->)]);
      rewrite Hb0.
    + apply length_update_first.
    + rewrite length_app. simpl. lia.
  - eexists. split; [| split].
    + apply (filter_single bill_key
               (Enrollment.student_id enr1, Enrollment.semester enr1));
        [apply bill_of_true | exact Hk2 | exact Hb2].
    + cbn. now rewrite <- app_assoc.
    + intros Hnone. cbn. unfold bill_before. rewrite Hnone. reflexivity.
Qed.

(** Ana enrolls in CS101 and then in MA201: one bill, two lines. *)
Lemma one_bill_per_student_semester_witness :
  one_bill_per_key after_cs101
  /\ one_bill_per_key after_ma201
  /\ List.length (bill after_ma201) = 1
  /\ exists b,
       List.filter (bill_of "ana" "2025-1") (bill after_ma201) = [b]
       /\ Bill.lines (data b) =
          [] ++ [tuition_line catalog ana_cs101;
                 tuition_line after_cs101 ana_ma201]
       /\ (List.find (bill_of "ana" "2025-1") (bill catalog) = None ->
           List.length (Bill.lines (data b)) = 2).
Proof.
  apply (one_bill_per_student_semester
           (oid_of_byte x10) (oid_of_byte x20) (oid_of_byte x11)
           (oid_of_byte x21) 5%N 6%N ana_cs101 ana_ma201
           catalog after_cs101 after_ma201
           "000000000000000000000010" "000000000000000000000011").
  - constructor.
  - constructor.
  - reflexivity.
  - reflexivity.
  - vm_compute. reflexivity.
  - vm_compute. reflexivity.
Defined.

(** ** C7: a payment whose bill does not resolve *)

(** C7, as the code has it.  A payment whose [bill_id] resolves to no stored
    bill fails before any write: the database is left as it was, so no
    payment record is stored and no bill changes.  When the [bill_id] is a
    well-formed identifier the failure is 404 "Bill not found". *)
Theorem payment_for_missing_bill (new_pid : oid) (paid_at now : datetime)
    (payload : PaymentCreate.t) (db : Database) :
  (forall o,
     ObjectId (PaymentCreate.bill_id payload) = Return o ->
     List.find (by_id o) (bill db) = None) ->
  snd (create_payment new_pid paid_at now payload db) = db
  /\ (exists e, fst (create_payment new_pid paid_at now payload db) = Raise e)
  /\ (forall o,
        ObjectId (PaymentCreate.bill_id payload) = Return o ->
        create_payment new_pid paid_at now payload db =
        (Raise (HTTPException 404 "Bill not found"), db)).
Proof.
  intros Habsent. rewrite create_payment_run.
  destruct (ObjectId (PaymentCreate.bill_id payload)) as [o | e].
  - rewrite (Habsent o eq_refl). simpl. repeat split; eauto.
  - simpl. repeat split; eauto. discriminate.
Qed.

(** A payment against the well-formed identifier [..21], which no bill has. *)
Lemma payment_for_missing_bill_witness :
  snd (create_payment (oid_of_byte x30) 7%N 8%N
         (PaymentCreate.mk "000000000000000000000021" 300%float "cashier-1")
         after_cs101) = after_cs101
  /\ (exists e,
        fst (create_payment (oid_of_byte x30) 7%N 8%N
               (PaymentCreate.mk "000000000000000000000021" 300%float
                  "cashier-1")
               after_cs101) = Raise e)
  /\ (forall o,
        ObjectId "000000000000000000000021" = Return o ->
        create_payment (oid_of_byte x30) 7%N 8%N
          (PaymentCreate.mk "000000000000000000000021" 300%float "cashier-1")
          after_cs101 =
        (Raise (HTTPException 404 "Bill not found"), after_cs101)).
Proof.
  apply (payment_for_missing_bill (oid_of_byte x30) 7%N 8%N
           (PaymentCreate.mk "000000000000000000000021" 300%float "cashier-1")
           after_cs101).
  intros o Ho.
  change (ObjectId _) with (Return (oid_of_byte x21)) in Ho.
  injection Ho as <-. reflexivity.
Defined.

(** A payment whose [bill_id] is not an ObjectId resolves to no bill, and
    the request ends in the unhandled [InvalidId]: a 500, not a 404. *)
Lemma malformed_bill_id_is_not_404 :
  bill_of_request
    (PostPayment (oid_of_byte x30) 7%N 8%N
       (PaymentCreate.mk "no-such-bill" 300%float "cashier-1"))
    after_cs101 = None
  /\ create_payment (oid_of_byte x30) 7%N 8%N
       (PaymentCreate.mk "no-such-bill" 300%float "cashier-1") after_cs101 =
     (Raise InvalidId, after_cs101)
  /\ http_status
       (fst (create_payment (oid_of_byte x30) 7%N 8%N
               (PaymentCreate.mk "no-such-bill" 300%float "cashier-1")
               after_cs101)) = 500.
Proof. repeat split. Qed.

(** ** C8: payment amounts and the [paid] field *)




(** ** C9: the failures of get-subject-by-id *)

(** Whatever goes wrong in [get_subject], the response is 400 "Invalid
    subject id": the 404 raised for an absent subject is caught by the
    handler's own [except Exception]. *)
Lemma get_subject_failure (subject_id : string) (db db' : Database) (e : exn) :
  get_subject subject_id db = (Raise e, db') ->
  e = HTTPException 400 "Invalid subject id" /\ db' = db.
Proof.
  rewrite get_subject_run.
  destruct (ObjectId subject_id) as [o | e0].
  - destruct (List.find (by_id o) (subject db)); [discriminate |].
    intros [= <- <-]. auto.
  - intros [= <- <-]. auto.
Qed.

(** C9, at a failing input.  The identifier [..03] is well formed and no
    subject of the catalog has it; [get_subject] answers 400 "Invalid subject
    id", as it does for a malformed identifier, where the claim has 404. *)
Theorem get_subject_absent_is_400 :
  ObjectId "000000000000000000000003" = Return (oid_of_byte x03)
  /\ List.find (by_id (oid_of_byte x03)) (subject catalog) = None
  /\ get_subject "000000000000000000000003" catalog =
     (Raise (HTTPException 400 "Invalid subject id"), catalog)
  /\ get_subject "not-an-id" catalog =
     (Raise (HTTPException 400 "Invalid subject id"), catalog).
Proof. repeat split. Qed.

(** ** The states the handlers produce *)

Lemma step_keeps_statuses (req : request) (db db' : Database)
    (r : outcome string) :
  statuses_consistent db ->
  reconciliation_step req db = (r, db') ->
  statuses_consistent db'.
Proof.
  unfold statuses_consistent. intros Hc.
  destruct req as [new_eid new_bid now enr | new_pid paid_at now payload];
    simpl; intros Hrun.
  - destruct (enrollment_keeps_bills _ _ _ _ _ _ _ Hrun)
      as [-> | [(b & _ & ->) | (_ & _ & ->)]]; [assumption | |].
    + apply Forall_update_first; [assumption |].
      intros; apply reconcile_status_ok.
    + apply Forall_app. split; [assumption |].
      constructor; [apply reconcile_status_ok | constructor].
  - destruct (payment_keeps_bills _ _ _ _ _ _ _ Hrun) as [-> | [o ->]];
      [assumption |].
    apply Forall_update_first; [assumption |].
    intros; apply apply_payment_status_ok.
Qed.

(** From a database without bills the handlers only reach databases whose
    bills have distinct identifiers, one bill per student and semester,
    totals equal to the sums of the lines and statuses given by the Status
    Rule. *)
Lemma reachable_bills_consistent (db0 db : Database) :
  bill db0 = [] ->
  reaches db0 db ->
  unique_ids (bill db) /\ one_bill_per_key db
  /\ totals_consistent db /\ statuses_consistent db.
Proof.
  intros Hempty Hreach.
  induction Hreach as [| req r db1 db2 _ IH Hrun].
  - unfold unique_ids, one_bill_per_key, totals_consistent, statuses_consistent.
    rewrite Hempty. repeat split; constructor.
  - destruct IH as (Hu & Hk & Ht & Hs). repeat split.
    + exact (step_keeps_unique_ids _ _ _ _ Hu Hrun).
    + exact (step_keeps_one_bill_per_key _ _ _ _ Hk Hrun).
    + exact (step_keeps_totals _ _ _ _ Ht Hrun).
    + exact (step_keeps_statuses _ _ _ _ Hs Hrun).
Qed.

(** ** The examples of the specification *)

(** Enrolling in a subject of 3 units at 100 per unit appends a line of 300;
    the fresh bill has total 300 and status "unpaid". *)
Example enrollment_of_three_units :
  option_map (fun b => (map BillLine.amount (Bill.lines (data b)),
                        Bill.total (data b), Bill.paid (data b),
                        status_name (Bill.status (data b))))
    (List.find (bill_of "ana" "2025-1") (bill after_cs101)) =
  Some ([300%float], 300%float, 0%float, "unpaid").
Proof. reflexivity. Qed.

(** A payment of 150 against a bill of total 300 makes it "partial". *)
Example payment_of_half :
  option_map (fun b => (Bill.paid (data b), status_name (Bill.status (data b))))
    (List.find (by_id (oid_of_byte x20))
       (bill (snd (reconciliation_step (pay 150%float) after_cs101)))) =
  Some (150%float, "partial").
Proof. reflexivity. Qed.

(** A subject identifier that is well formed and matches no subject is
    billed 0 as well. *)
Example enrollment_in_absent_subject :
  fee_of catalog "000000000000000000000003" = 0%float
  /\ fee_of catalog "no-such-subject" = 0%float
  /\ fee_of catalog "000000000000000000000002" = 200%float.
Proof. repeat split. Qed.

(** [Subject] refuses a negative number of units; no model refuses a
    negative payment. *)
Example subject_validation :
  validate_Subject "CS101" "Programming" (-3)%float 100%float None =
  inr (field_error "units").
Proof. reflexivity. Qed.

(** * Further properties of the handlers *)

(** ** Subjects: creation and lookup *)

Lemma create_subject_run (new_sid : oid) (s : Subject.t) (db : Database) :
  create_subject new_sid s db =
  if existsb (by_id new_sid) (subject db)
  then (Raise DuplicateKeyError, db)
  else (Return (str new_sid),
        with_docs subject_c (subject db ++ [mk_doc new_sid s None]) db).
Proof.
  unfold create_subject, bind, create_document, ret. cbn [docs subject_c].
  destruct (existsb (by_id new_sid) (subject db)); reflexivity.
Qed.

(** X1. A subject stored under an identifier not yet taken can be read back:
    [create_subject] returns the identifier as a string and [get_subject] of
    that string returns the subject as it was given.  Every subject that
    could be read before can still be read, and enrollments, bills and
    payments are as they were. *)
Theorem subject_round_trip (new_sid : oid) (s : Subject.t) (db : Database) :
  ~ In new_sid (map _id (subject db)) ->
  exists db1,
    create_subject new_sid s db = (Return (str new_sid), db1)
    /\ get_subject (str new_sid) db1 = (Return (str new_sid, s), db1)
    /\ (forall i r,
          get_subject i db = (Return r, db) ->
          get_subject i db1 = (Return r, db1))
    /\ enrollment db1 = enrollment db
    /\ bill db1 = bill db
    /\ payment db1 = payment db.
Proof.
  intros Hnew. apply existsb_by_id in Hnew.
  rewrite create_subject_run, Hnew.
  eexists. split; [reflexivity |].
  apply find_existsb_false in Hnew.
  split; [| split; [| auto]].
  - rewrite get_subject_run, ObjectId_str. cbn [subject with_docs subject_c].
    rewrite (find_app_last _ _ _ Hnew).
    unfold by_id at 1. cbn [_id]. rewrite oid_eqb_refl. reflexivity.
  - intros i r. rewrite !get_subject_run.
    destruct (ObjectId i) as [o | e]; [| discriminate].
    cbn [subject with_docs subject_c].
    destruct (List.find (by_id o) (subject db)) as [d |] eqn:Ef; [| discriminate].
    rewrite (find_app_some _ _ _ _ Ef). now intros [= <-].
Qed.

Lemma subject_round_trip_witness :
  exists db1,
    create_subject (oid_of_byte x03) ph110 catalog =
      (Return "000000000000000000000003", db1)
    /\ get_subject "000000000000000000000003" db1 =
       (Return ("000000000000000000000003", ph110), db1)
    /\ (forall i r,
          get_subject i catalog = (Return r, catalog) ->
          get_subject i db1 = (Return r, db1))
    /\ enrollment db1 = enrollment catalog
    /\ bill db1 = bill catalog
    /\ payment db1 = payment catalog.
Proof.
  apply (subject_round_trip (oid_of_byte x03) ph110 catalog).
  simpl. intros [H | [H | []]]; apply (f_equal oid_bytes) in H; discriminate.
Defined.

(** X2. When [get_subject] answers, the database is as it was, the
    identifier asked for is well formed, the answer is the first subject
    stored under it, and the identifier in the answer is the canonical
    lower-case spelling, which names the same subject. *)
Theorem get_subject_answer (subject_id : string) (db db' : Database)
    (i : string) (s : Subject.t) :
  get_subject subject_id db = (Return (i, s), db') ->
  db' = db
  /\ exists o d,
       ObjectId subject_id = Return o
       /\ List.find (by_id o) (subject db) = Some d
       /\ s = data d
       /\ i = str o
       /\ ObjectId i = Return o
       /\ get_subject i db = (Return (i, s), db).
Proof.
  rewrite get_subject_run.
  destruct (ObjectId subject_id) as [o | e] eqn:Eo; [| discriminate].
  destruct (List.find (by_id o) (subject db)) as [d |] eqn:Ef; [| discriminate].
  intros [= <- <- <-].
  assert (Hid : _id d = o) by (apply find_some in Ef; now apply by_id_true).
  rewrite Hid. split; [reflexivity |].
  exists o, d. repeat split; auto using ObjectId_str.
  rewrite get_subject_run, ObjectId_str, Ef, Hid. reflexivity.
Qed.

(** The subject stored under [..ab], asked for in upper case. *)
Lemma get_subject_answer_witness :
  get_subject "0000000000000000000000AB" catalog_ab =
    (Return ("0000000000000000000000ab", ph110), catalog_ab)
  /\ catalog_ab = catalog_ab
  /\ exists o d,
       ObjectId "0000000000000000000000AB" = Return o
       /\ List.find (by_id o) (subject catalog_ab) = Some d
       /\ ph110 = data d
       /\ "0000000000000000000000ab" = str o
       /\ ObjectId "0000000000000000000000ab" = Return o
       /\ get_subject "0000000000000000000000ab" catalog_ab =
          (Return ("0000000000000000000000ab", ph110), catalog_ab).
Proof.
  assert (Hrun : get_subject "0000000000000000000000AB" catalog_ab =
                 (Return ("0000000000000000000000ab", ph110), catalog_ab))
    by reflexivity.
  split; [exact Hrun |].
  exact (get_subject_answer _ _ _ _ _ Hrun).
Defined.

(** ** Subjects: the fee of a validated subject *)

(** The product of two floats that are zero or above is zero or above, or
    not a number (infinity times zero). *)
Lemma mul_nonnegative (x y : float) :
  (0 <=? x)%float = true -> (0 <=? y)%float = true ->
  nonnegative_or_nan (x * y)%float.
Proof.
  unfold nonnegative_or_nan.
  rewrite !FloatAxioms.leb_spec, FloatAxioms.eqb_spec, FloatAxioms.mul_spec.
  change (FloatOps.Prim2SF 0) with (SpecFloat.S754_zero false).
  destruct (FloatOps.Prim2SF x) as [sx | sx | | sx mx ex];
    destruct (FloatOps.Prim2SF y) as [sy | sy | | sy my ey];
    try destruct sx; try destruct sy; simpl; try discriminate; auto.
  intros _ _.
  unfold FloatAxioms.SF64mul, SpecFloat.SFmul, SpecFloat.binary_round_aux.
  cbn [xorb].
  destruct (SpecFloat.shr_fexp _ _ _ _ _) as [mrs' e'].
  destruct (SpecFloat.shr_fexp _ _ _ _ _) as [mrs'' e''].
  destruct (SpecFloat.shr_m mrs'') as [| m | m]; auto.
  match goal with |- context [if ?c then _ else _] => destruct c end; auto.
Qed.

Lemma validate_Subject_accepts (code title : string)
    (units fee_per_unit : float) (faculty_id : option string) (s : Subject.t) :
  validate_Subject code title units fee_per_unit faculty_id = inl s ->
  s = Subject.mk code title units fee_per_unit faculty_id
  /\ (0 <=? units)%float = true /\ (0 <=? fee_per_unit)%float = true.
Proof.
  unfold validate_Subject.
  destruct (0 <=? units)%float; [| discriminate].
  destruct (0 <=? fee_per_unit)%float; [| discriminate].
  intros [= <-]. auto.
Qed.

(** The line a non-duplicate enrollment appends, and its amount. *)
Lemma enrollment_appends_line (new_eid new_bid : oid) (now : datetime)
    (enr : Enrollment.t) (db : Database) :
  unique_ids (bill db) ->
  List.filter (same_enrollment enr) (enrollment db) = [] ->
  ~ In new_eid (map _id (enrollment db)) ->
  ~ In new_bid (map _id (bill db)) ->
  exists db' b,
    create_enrollment new_eid new_bid now enr db = (Return (str new_eid), db')
    /\ List.find
         (bill_of (Enrollment.student_id enr) (Enrollment.semester enr))
         (bill db') = Some b
    /\ Bill.lines (data b) =
       Bill.lines (data (bill_before db new_bid enr)) ++ [tuition_line db enr].
Proof.
  intros Hu Hdup Heid Hbid.
  apply existsb_by_id in Heid. apply existsb_by_id in Hbid.
  destruct (create_enrollment new_eid new_bid now enr db) as [r db'] eqn:Hrun.
  assert (Hr : r = Return (str new_eid)).
  { rewrite create_enrollment_run, Hdup, Heid in Hrun. cbv zeta in Hrun.
    destruct (List.find _ (bill db)); [now inversion Hrun |].
    rewrite Hbid in Hrun. now inversion Hrun. }
  subst r.
  exists db', (reconcile (tuition_line db enr) now (bill_before db new_bid enr)).
  split; [reflexivity |].
  split; [exact (enrollment_bill_after _ _ _ _ _ _ _ Hu Hrun) | reflexivity].
Qed.

(** X3. A subject that passed validation and was stored by
    [create_subject] is billed at [units * fee_per_unit] by the next
    enrollment that names the returned identifier, and that amount is zero
    or above, or not a number: a validated subject never yields a negative
    line. *)
Theorem created_subject_is_billed (code title : string)
    (units fee_per_unit : float) (faculty_id : option string)
    (s : Subject.t) (new_sid new_eid new_bid : oid) (now : datetime)
    (enr : Enrollment.t) (db db1 : Database) (sid : string) :
  validate_Subject code title units fee_per_unit faculty_id = inl s ->
  create_subject new_sid s db = (Return sid, db1) ->
  Enrollment.subject_id enr = sid ->
  unique_ids (bill db) ->
  List.filter (same_enrollment enr) (enrollment db) = [] ->
  ~ In new_eid (map _id (enrollment db)) ->
  ~ In new_bid (map _id (bill db)) ->
  exists db2 b,
    create_enrollment new_eid new_bid now enr db1 = (Return (str new_eid), db2)
    /\ List.find
         (bill_of (Enrollment.student_id enr) (Enrollment.semester enr))
         (bill db2) = Some b
    /\ Bill.lines (data b) =
       Bill.lines (data (bill_before db new_bid enr)) ++
       [BillLine.mk sid "Tuition for subject" (units * fee_per_unit)%float]
    /\ nonnegative_or_nan (units * fee_per_unit)%float.
Proof.
  intros Hval Hcreate Hsid Hu Hdup Heid Hbid.
  apply validate_Subject_accepts in Hval. destruct Hval as (-> & Hunits & Hfee).
  rewrite create_subject_run in Hcreate.
  destruct (existsb (by_id new_sid) (subject db)) eqn:Enew; [discriminate |].
  injection Hcreate as <- <-.
  apply find_existsb_false in Enew.
  destruct (enrollment_appends_line new_eid new_bid now enr
              (with_docs subject_c
                 (subject db ++
                  [mk_doc new_sid
                     (Subject.mk code title units fee_per_unit faculty_id) None])
                 db) Hu Hdup Heid Hbid)
    as (db2 & b & Hrun & Hfind & Hlines).
  exists db2, b. split; [exact Hrun |]. split; [exact Hfind |].
  split; [| now apply mul_nonnegative].
  rewrite Hlines. unfold bill_before, tuition_line, fee_of.
  cbn [bill subject with_docs subject_c].
  rewrite Hsid, ObjectId_str, (find_app_last _ _ _ Enew).
  unfold by_id at 1. cbn [_id]. rewrite oid_eqb_refl. reflexivity.
Qed.

(** PH110, 2 units at 75, is stored under [..03] and Ana enrolls in it: her
    bill gets a line of 150. *)
Lemma created_subject_is_billed_witness :
  exists db2 b,
    create_enrollment (oid_of_byte x10) (oid_of_byte x20) 5%N
      (Enrollment.mk "ana" "000000000000000000000003" "2025-1" enrolled)
      (snd (create_subject (oid_of_byte x03) ph110 catalog)) =
    (Return "000000000000000000000010", db2)
    /\ List.find (bill_of "ana" "2025-1") (bill db2) = Some b
    /\ Bill.lines (data b) =
       [] ++
       [BillLine.mk "000000000000000000000003" "Tuition for subject"
          (2 * 75)%float]
    /\ nonnegative_or_nan (2 * 75)%float.
Proof.
  apply (created_subject_is_billed "PH110" "Mechanics" 2%float 75%float
           (Some "prof-1") ph110 (oid_of_byte x03) (oid_of_byte x10)
           (oid_of_byte x20) 5%N
           (Enrollment.mk "ana" "000000000000000000000003" "2025-1" enrolled)
           catalog (snd (create_subject (oid_of_byte x03) ph110 catalog))
           "000000000000000000000003").
  - reflexivity.
  - reflexivity.
  - reflexivity.
  - constructor.
  - reflexivity.
  - simpl. tauto.
  - simpl. tauto.
Defined.

(** Validation lets an infinite number of units through; at a fee of 0 per
    unit the amount billed is not a number. *)
Example infinite_units_bill_nan :
  validate_Subject "X" "Y" infinity 0%float None =
    inl (Subject.mk "X" "Y" infinity 0%float None)
  /\ (infinity * 0 =? infinity * 0)%float = false.
Proof. split; reflexivity. Qed.

(** ** Enrollments: one per triple, and their listing *)

Lemma enrollment_keeps_enrollments (new_eid new_bid : oid) (now : datetime)
    (enr : Enrollment.t) (db db' : Database) (r : outcome string) :
  create_enrollment new_eid new_bid now enr db = (r, db') ->
  enrollment db' = enrollment db
  \/ (List.filter (same_enrollment enr) (enrollment db) = []
      /\ enrollment db' = enrollment db ++ [mk_doc new_eid enr None]).
Proof.
  rewrite create_enrollment_run.
  destruct (List.filter _ _) eqn:Ef; [| intros [= _ <-]; now left].
  destruct (existsb _ (enrollment db)); [intros [= _ <-]; now left |].
  cbv zeta. destruct (List.find _ (bill db)).
  - intros [= _ <-]. right. auto.
  - destruct (existsb _ (bill db)); intros [= _ <-]; right; auto.
Qed.

Lemma payment_keeps_enrollments (new_pid : oid) (paid_at now : datetime)
    (payload : PaymentCreate.t) (db db' : Database) (r : outcome string) :
  create_payment new_pid paid_at now payload db = (r, db') ->
  enrollment db' = enrollment db /\ subject db' = subject db.
Proof.
  rewrite create_payment_run.
  destruct (ObjectId _) as [o | e]; [| intros [= _ <-]; auto].
  destruct (List.find _ (bill db)); [| intros [= _ <-]; auto].
  destruct (existsb _ (payment db)); intros [= _ <-]; auto.
Qed.

Lemma same_enrollment_key (enr : Enrollment.t) (d : doc Enrollment.t) :
  same_enrollment enr d = true <->
  enrollment_key d =
  (Enrollment.student_id enr, Enrollment.subject_id enr,
   Enrollment.semester enr).
Proof.
  rewrite same_enrollment_true. unfold enrollment_key.
  split; [intros (-> & -> & ->); reflexivity | intros [= -> -> ->]; auto].
Qed.

(** X4. Every enrollment or payment request, whatever its outcome, keeps at
    most one enrollment per (student, subject, semester). *)
Theorem step_keeps_one_enrollment_per_triple (req : request)
    (db db' : Database) (r : outcome string) :
  one_enrollment_per_triple db ->
  reconciliation_step req db = (r, db') ->
  one_enrollment_per_triple db'.
Proof.
  unfold one_enrollment_per_triple. intros Hu.
  destruct req as [new_eid new_bid now enr | new_pid paid_at now payload];
    simpl; intros Hrun.
  - destruct (enrollment_keeps_enrollments _ _ _ _ _ _ _ Hrun)
      as [-> | [Hnone ->]]; [assumption |].
    rewrite map_app. simpl. apply NoDup_app_one; [assumption |].
    rewrite in_map_iff. intros (d & Hk & Hin).
    assert (Hd : In d (List.filter (same_enrollment enr) (enrollment db))).
    { apply filter_In. split; [assumption |].
      apply same_enrollment_key. exact Hk. }
    rewrite Hnone in Hd. destruct Hd.
  - destruct (payment_keeps_enrollments _ _ _ _ _ _ _ Hrun) as [-> _].
    assumption.
Qed.

Lemma step_keeps_one_enrollment_per_triple_witness :
  one_enrollment_per_triple after_cs101
  /\ reconciliation_step enroll_ana_ma201 after_cs101 =
     (Return "000000000000000000000011", after_ma201)
  /\ one_enrollment_per_triple after_ma201.
Proof.
  assert (Hu : one_enrollment_per_triple after_cs101).
  { repeat constructor. simpl. tauto. }
  assert (Hrun : reconciliation_step enroll_ana_ma201 after_cs101 =
                 (Return "000000000000000000000011", after_ma201))
    by (vm_compute; reflexivity).
  split; [exact Hu |]. split; [exact Hrun |].
  exact (step_keeps_one_enrollment_per_triple _ _ _ _ Hu Hrun).
Defined.

Lemma list_enrollments_run (student_id subject_id semester : option string)
    (db : Database) :
  list_enrollments student_id subject_id semester db =
  (Return
     (map stringify_id
        (List.filter
           (fun d =>
              forallb (fun entry => entry d)
                (set_if semester (field_is Enrollment.semester)
                   (set_if subject_id (field_is Enrollment.subject_id)
                      (set_if student_id (field_is Enrollment.student_id) []))))
           (enrollment db))),
   db).
Proof. reflexivity. Qed.

Lemma filter_app_one {A : Type} (p : A -> bool) (l : list A) (x : A) :
  List.filter p l = [] -> p x = true -> List.filter p (l ++ [x]) = [x].
Proof.
  intros Hl Hx. rewrite filter_app, Hl. simpl. now rewrite Hx.
Qed.

(** X5. After a successful enrollment whose student, subject and semester
    are non-empty strings, [list_enrollments] filtered by the three returns
    exactly one item: the enrollment as it was given, under the identifier
    [create_enrollment] returned. *)
Theorem enrollment_is_listed (new_eid new_bid : oid) (now : datetime)
    (enr : Enrollment.t) (db db' : Database) (r : string) :
  create_enrollment new_eid new_bid now enr db = (Return r, db') ->
  Enrollment.student_id enr <> "" ->
  Enrollment.subject_id enr <> "" ->
  Enrollment.semester enr <> "" ->
  list_enrollments (Some (Enrollment.student_id enr))
    (Some (Enrollment.subject_id enr)) (Some (Enrollment.semester enr)) db' =
  (Return [(r, enr)], db').
Proof.
  intros Hrun H1 H2 H3. apply create_enrollment_success in Hrun.
  destruct Hrun as (Hnone & -> & _ & _ & _ & Henr & _).
  rewrite list_enrollments_run, Henr.
  destruct (Enrollment.student_id enr) as [| c1 s1] eqn:E1; [congruence |].
  destruct (Enrollment.subject_id enr) as [| c2 s2] eqn:E2; [congruence |].
  destruct (Enrollment.semester enr) as [| c3 s3] eqn:E3; [congruence |].
  cbn [set_if app].
  rewrite (filter_ext _ (same_enrollment enr)).
  - rewrite filter_app_one; [reflexivity | exact Hnone |].
    apply same_enrollment_true. auto.
  - intros d. unfold same_enrollment, field_is. cbn [forallb].
    rewrite E1, E2, E3, andb_true_r, andb_assoc. reflexivity.
Qed.

Lemma enrollment_is_listed_witness :
  list_enrollments (Some "ana") (Some "000000000000000000000001")
    (Some "2025-1") after_cs101 =
  (Return [("000000000000000000000010", ana_cs101)], after_cs101).
Proof.
  apply (enrollment_is_listed (oid_of_byte x10) (oid_of_byte x20) 5%N
           ana_cs101 catalog after_cs101 "000000000000000000000010").
  - vm_compute. reflexivity.
  - discriminate.
  - discriminate.
  - discriminate.
Defined.

(** An empty query parameter is no filter: everyone's enrollments are
    listed. *)
Example empty_filter_lists_all :
  list_enrollments (Some "") None None after_ma201 =
  list_enrollments None None None after_ma201
  /\ List.length (fst_items (list_enrollments (Some "") None None after_ma201)) = 2.
Proof. split; reflexivity. Qed.

(** ** The ledger: [paid] is the sum of the recorded payments *)

Lemma py_sum_snoc (xs : list float) (x : float) :
  py_sum (xs ++ [x]) = (py_sum xs + x)%float.
Proof. unfold py_sum. now rewrite fold_left_app. Qed.

Lemma payments_of_same (o : oid) (db db' : Database) :
  payment db' = payment db -> payments_of o db' = payments_of o db.
Proof. unfold payments_of. now intros ->. Qed.

Lemma payments_of_snoc (o : oid) (db db' : Database) (p : doc Payment.t) :
  payment db' = payment db ++ [p] ->
  payments_of o db' =
  payments_of o db ++
  (if names_bill o p then [Payment.amount (data p)] else []).
Proof.
  unfold payments_of. intros ->. rewrite filter_app, map_app. simpl.
  destruct (names_bill o p); reflexivity.
Qed.

Lemma filter_nil {A : Type} (p : A -> bool) (l : list A) :
  (forall x, In x l -> p x = false) -> List.filter p l = [].
Proof.
  induction l as [| x rest IH]; simpl; [reflexivity |].
  intros H. rewrite (H x (or_introl eq_refl)). auto.
Qed.

Lemma named_bill_is_stored (db : Database) (p : doc Payment.t) (o : oid) :
  ledger_consistent db -> In p (payment db) -> names_bill o p = true ->
  In o (map _id (bill db)).
Proof.
  intros (_ & Hnamed & _) Hin Hname. unfold names_bill in Hname.
  destruct (Hnamed p Hin) as (b & Hb & Ho). rewrite Ho in Hname.
  apply oid_eqb_eq in Hname. subst o. now apply in_map.
Qed.

Lemma in_ids_update_first {A : Type} (p : doc A -> bool) (f : doc A -> doc A)
    (l : list (doc A)) (b : doc A) :
  (forall d, _id (f d) = _id d) ->
  In b l ->
  exists b', In b' (update_first p f l) /\ _id b' = _id b.
Proof.
  intros Hid Hin.
  assert (H : In (_id b) (map _id (update_first p f l)))
    by (rewrite map_update_first by exact Hid; now apply in_map).
  apply in_map_iff in H. destruct H as (b' & ? & ?). eauto.
Qed.

(** Every enrollment or payment request of the model, whatever its outcome
    there, keeps the ledger consistent. *)
Lemma ledger_kept (req : request) (db db' : Database)
    (r : outcome string) :
  ledger_consistent db ->
  reconciliation_step req db = (r, db') ->
  ledger_consistent db'.
Proof.
  intros Hl Hrun.
  pose proof Hl as (Hu & Hnamed & Hpaid).
  pose proof (step_keeps_unique_ids _ _ _ _ Hu Hrun) as Hu'.
  split; [exact Hu' |].
  destruct req as [new_eid new_bid now enr | new_pid paid_at now payload];
    simpl in Hrun.
  - assert (Hpay : payment db' = payment db).
    { revert Hrun. rewrite create_enrollment_run.
      destruct (List.filter _ _); [| now intros [= _ <-]].
      destruct (existsb _ (enrollment db)); [now intros [= _ <-] |].
      cbv zeta. destruct (List.find _ (bill db)); [now intros [= _ <-] |].
      destruct (existsb _ (bill db)); now intros [= _ <-]. }
    destruct (enrollment_keeps_bills _ _ _ _ _ _ _ Hrun)
      as [Hb | [(b & _ & Hb) | (_ & Hnew & Hb)]]; rewrite Hb, Hpay; split.
    + exact Hnamed.
    + intros b0 Hb0. rewrite (payments_of_same _ _ _ Hpay). auto.
    + intros p Hp. destruct (Hnamed p Hp) as (b0 & Hb0 & Ho).
      destruct (in_ids_update_first (by_id (_id b))
                  (reconcile (tuition_line db enr) now) _ b0
                  (reconcile_id _ _) Hb0) as (b' & Hb' & Hid).
      exists b'. split; [assumption | congruence].
    + intros b' Hb'. rewrite (payments_of_same _ _ _ Hpay).
      apply in_update_first in Hb'.
      destruct Hb' as [Hin | (b0 & Hb0 & ->)]; [auto |].
      apply find_some in Hb0. destruct Hb0 as [Hb0 _].
      rewrite reconcile_id. exact (Hpaid b0 Hb0).
    + intros p Hp. destruct (Hnamed p Hp) as (b0 & Hb0 & Ho).
      exists b0. split; [apply in_or_app; now left | assumption].
    + intros b' Hb'. rewrite (payments_of_same _ _ _ Hpay).
      apply in_app_or in Hb'. destruct Hb' as [Hin | [<- | []]]; [auto |].
      rewrite reconcile_id. cbn [_id new_bill].
      unfold payments_of. rewrite filter_nil; [reflexivity |].
      intros p Hp. destruct (names_bill new_bid p) eqn:En; [| reflexivity].
      exfalso. apply Hnew. exact (named_bill_is_stored _ _ _ Hl Hp En).
  - revert Hrun Hu'. rewrite create_payment_run.
    destruct (ObjectId (PaymentCreate.bill_id payload)) as [o | e] eqn:Eo;
      [| intros [= _ <-] _; now split].
    destruct (List.find (by_id o) (bill db)) as [b |] eqn:Ef;
      [| intros [= _ <-] _; now split].
    destruct (existsb _ (payment db)); [intros [= _ <-] _; now split |].
    intros [= _ <-] Hu'. cbn [bill payment with_docs bill_c payment_c] in *.
    set (p := mk_doc new_pid
                (Payment.mk (PaymentCreate.bill_id payload)
                   (PaymentCreate.amount payload)
                   (PaymentCreate.cashier_id payload) paid_at) None).
    assert (Hidb : _id b = o) by (apply find_some in Ef; now apply by_id_true).
    assert (Hinb : In b (bill db)) by (now apply find_some in Ef).
    split.
    + intros q Hq. apply in_app_or in Hq.
      assert (Hstill : forall b0, In b0 (bill db) ->
                exists b', In b' (update_first (by_id o)
                                    (apply_payment (PaymentCreate.amount payload) now)
                                    (bill db))
                           /\ _id b' = _id b0)
        by (intros b0 Hb0; now apply in_ids_update_first).
      destruct Hq as [Hq | [<- | []]].
      * destruct (Hnamed q Hq) as (b0 & Hb0 & Ho).
        destruct (Hstill b0 Hb0) as (b' & Hb' & Hid).
        exists b'. split; [assumption | congruence].
      * destruct (Hstill b Hinb) as (b' & Hb' & Hid).
        exists b'. split; [assumption |]. cbn [data p Payment.bill_id].
        congruence.
    + intros b' Hb'.
      match goal with
      | |- context [payments_of _ ?d] =>
          rewrite (payments_of_snoc (_id b') db d p eq_refl)
      end.
      unfold names_bill. cbn [data p Payment.bill_id Payment.amount]. rewrite Eo.
      apply (in_update_by_id _ _ _ _ Hu) in Hb'.
      destruct Hb' as [[Hin Hne] | (b0 & Hb0 & ->)].
      * apply not_eq_sym, oid_eqb_neq in Hne. rewrite Hne, app_nil_r. auto.
      * rewrite Ef in Hb0. injection Hb0 as <-.
        rewrite apply_payment_id, Hidb, oid_eqb_refl, py_sum_snoc.
        cbn [apply_payment set_paid_status data Bill.paid].
        rewrite (Hpaid b Hinb), Hidb. reflexivity.
Qed.

(** X6. Every enrollment or payment request that succeeds, all its reads
    and writes having been served by the store, keeps the ledger consistent:
    bills keep distinct identifiers, every payment record names a stored
    bill, and the [paid] of each bill is the sum, in the order of recording,
    of the amounts of the payment records that name it. *)
Theorem step_keeps_ledger (req : request) (db db' : Database) (r : string) :
  ledger_consistent db ->
  reconciliation_step req db = (Return r, db') ->
  ledger_consistent db'.
Proof. intros Hl Hrun. exact (ledger_kept _ _ _ _ Hl Hrun). Qed.

Lemma ledger_consistent_start (db : Database) :
  bill db = [] -> payment db = [] -> ledger_consistent db.
Proof.
  intros Hb Hp. unfold ledger_consistent, unique_ids. rewrite Hb, Hp.
  repeat split; [constructor | intros ? [] | intros ? []].
Qed.

(** From a database without bills and payments every database the handlers
    reach has a consistent ledger. *)
Lemma reachable_ledger_consistent (db0 db : Database) :
  bill db0 = [] -> payment db0 = [] -> reaches db0 db -> ledger_consistent db.
Proof.
  intros Hb Hp Hreach. induction Hreach as [| req r db1 db2 _ IH Hrun].
  - now apply ledger_consistent_start.
  - exact (ledger_kept _ _ _ _ IH Hrun).
Qed.

Lemma reaches_after_100 : reaches catalog after_100.
Proof.
  apply (reaches_step _ (pay 100%float) (Return "000000000000000000000030")
           after_cs101).
  - apply (reaches_step _ enroll_ana_cs101 (Return "000000000000000000000010")
             catalog); [constructor | vm_compute; reflexivity].
  - vm_compute. reflexivity.
Qed.

(** A second payment, of 200, after one of 100: [paid] is (0 + 100) + 200. *)
Lemma step_keeps_ledger_witness :
  ledger_consistent after_100
  /\ reconciliation_step (pay_again 200%float) after_100 =
     (Return "000000000000000000000031", after_100_200)
  /\ ledger_consistent after_100_200.
Proof.
  assert (Hl : ledger_consistent after_100)
    by (apply (reachable_ledger_consistent catalog);
        [reflexivity | reflexivity | exact reaches_after_100]).
  assert (Hrun : reconciliation_step (pay_again 200%float) after_100 =
                 (Return "000000000000000000000031", after_100_200))
    by (vm_compute; reflexivity).
  split; [exact Hl |]. split; [exact Hrun |].
  exact (step_keeps_ledger _ _ _ _ Hl Hrun).
Defined.

Example paid_is_sum_of_payments :
  payments_of (oid_of_byte x20) after_100_200 = [100%float; 200%float]
  /\ option_map (fun b => Bill.paid (data b))
       (List.find (by_id (oid_of_byte x20)) (bill after_100_200)) =
     Some 300%float.
Proof. split; reflexivity. Qed.

(** ** Bills are kept and their lines only grow *)

Lemma in_update_first_image {A : Type} (p : A -> bool) (f : A -> A)
    (l : list A) (b : A) :
  In b l -> In b (update_first p f l) \/ In (f b) (update_first p f l).
Proof.
  induction l as [| d rest IH]; simpl; [tauto |].
  destruct (p d); simpl.
  - intros [-> | Hin]; auto.
  - intros [-> | Hin]; [auto |]. destruct (IH Hin); auto.
Qed.

(** X7. No request removes a bill or a line: after any enrollment or payment
    request, whatever its outcome, every bill stored before is still stored
    under the same identifier, for the same student and semester, and its
    lines are the earlier lines followed by at most one new line. *)
Theorem bills_only_grow (req : request) (db db' : Database)
    (r : outcome string) (b : doc Bill.t) :
  reconciliation_step req db = (r, db') ->
  In b (bill db) ->
  exists b' added,
    In b' (bill db')
    /\ _id b' = _id b
    /\ bill_key b' = bill_key b
    /\ Bill.lines (data b') = Bill.lines (data b) ++ added
    /\ List.length added <= 1.
Proof.
  intros Hrun Hin.
  assert (Hsame : In b (bill db') ->
                  exists b' added,
                    In b' (bill db') /\ _id b' = _id b
                    /\ bill_key b' = bill_key b
                    /\ Bill.lines (data b') = Bill.lines (data b) ++ added
                    /\ List.length added <= 1).
  { intros H. exists b, []. rewrite app_nil_r. simpl. repeat split; auto. }
  destruct req as [new_eid new_bid now enr | new_pid paid_at now payload];
    simpl in Hrun.
  - destruct (enrollment_keeps_bills _ _ _ _ _ _ _ Hrun)
      as [Hb | [(b0 & _ & Hb) | (_ & _ & Hb)]]; rewrite Hb in *.
    + auto.
    + destruct (in_update_first_image (by_id (_id b0))
                  (reconcile (tuition_line db enr) now) _ _ Hin) as [H | H];
        [auto |].
      exists (reconcile (tuition_line db enr) now b), [tuition_line db enr].
      simpl. repeat split; auto.
    + apply Hsame. apply in_or_app. now left.
  - destruct (payment_keeps_bills _ _ _ _ _ _ _ Hrun) as [Hb | [o Hb]];
      rewrite Hb in *; [auto |].
    destruct (in_update_first_image (by_id o)
                (apply_payment (PaymentCreate.amount payload) now) _ _ Hin)
      as [H | H]; [auto |].
    exists (apply_payment (PaymentCreate.amount payload) now b), [].
    rewrite app_nil_r. simpl. repeat split; auto.
Qed.

Lemma bills_only_grow_witness :
  reconciliation_step enroll_ana_ma201 after_cs101 =
    (Return "000000000000000000000011", after_ma201)
  /\ In (hd (new_bill (oid_of_byte x00) ana_cs101) (bill after_cs101))
       (bill after_cs101)
  /\ exists b' added,
       In b' (bill after_ma201)
       /\ _id b' = _id (hd (new_bill (oid_of_byte x00) ana_cs101)
                          (bill after_cs101))
       /\ bill_key b' =
          bill_key (hd (new_bill (oid_of_byte x00) ana_cs101)
                      (bill after_cs101))
       /\ Bill.lines (data b') =
          Bill.lines (data (hd (new_bill (oid_of_byte x00) ana_cs101)
                              (bill after_cs101))) ++ added
       /\ List.length added <= 1.
Proof.
  assert (Hrun : reconciliation_step enroll_ana_ma201 after_cs101 =
                 (Return "000000000000000000000011", after_ma201))
    by (vm_compute; reflexivity).
  assert (Hin : In (hd (new_bill (oid_of_byte x00) ana_cs101)
                      (bill after_cs101)) (bill after_cs101))
    by (left; reflexivity).
  split; [exact Hrun |]. split; [exact Hin |].
  exact (bills_only_grow _ _ _ _ _ Hrun Hin).
Defined.

(** ** Bills: the listing *)

Lemma list_bills_run (student_id status : option string) (db : Database) :
  list_bills student_id status db =
  (Return
     (map stringify_id
        (List.filter
           (fun d =>
              forallb (fun entry => entry d)
                (set_if status status_is
                   (set_if student_id (field_is Bill.student_id) [])))
           (bill db))),
   db).
Proof. reflexivity. Qed.

Lemma forallb_set_if {A : Type} (v : option string)
    (entry : string -> doc A -> bool) (filt : list (doc A -> bool))
    (d : doc A) :
  forallb (fun e => e d) (set_if v entry filt) = true ->
  forallb (fun e => e d) filt = true
  /\ forall c s, v = Some (String c s) -> entry (String c s) d = true.
Proof.
  destruct v as [[| c s] |]; simpl; intros H.
  - split; [assumption | discriminate].
  - rewrite forallb_app in H. simpl in H.
    apply andb_true_iff in H. destruct H as [H1 H2].
    rewrite andb_true_r in H2.
    split; [assumption |]. now intros ? ? [= <- <-].
  - split; [assumption | discriminate].
Qed.

(** X8. In a database whose bill statuses follow the Status Rule,
    [list_bills] filtered by a status only lists stored bills whose status
    has that name and whose [paid] and [total] justify it: under "paid"
    every listed bill has [paid >= total] and [total > 0], under "unpaid"
    none has [paid > 0].  A student filter only lets that student's bills
    through, and the listing leaves the database as it was. *)
Theorem listed_bills_match_status (student_id : option string) (c : ascii)
    (s : string) (db db' : Database) (items : list (string * Bill.t)) :
  statuses_consistent db ->
  list_bills student_id (Some (String c s)) db = (Return items, db') ->
  db' = db
  /\ forall i b, In (i, b) items ->
       (exists d, In d (bill db) /\ i = str (_id d) /\ b = data d)
       /\ status_name (Bill.status b) = String c s
       /\ (String c s = "paid" ->
           (Bill.total b <=? Bill.paid b)%float = true
           /\ (0 <? Bill.total b)%float = true)
       /\ (String c s = "unpaid" -> (0 <? Bill.paid b)%float = false)
       /\ (forall c' s', student_id = Some (String c' s') ->
           Bill.student_id b = String c' s').
Proof.
  intros Hc. rewrite list_bills_run. intros [= <- <-].
  split; [reflexivity |]. intros i b Hin.
  apply in_map_iff in Hin. destruct Hin as (d & [= <- <-] & Hd).
  apply filter_In in Hd. destruct Hd as [Hd Hmatch].
  apply (forallb_set_if (Some (String c s)) status_is
           (set_if student_id (field_is Bill.student_id) [])) in Hmatch.
  destruct Hmatch as [Hmatch Hstatus].
  apply forallb_set_if in Hmatch. destruct Hmatch as [_ Hstudent].
  specialize (Hstatus c s eq_refl). unfold status_is in Hstatus.
  apply String.eqb_eq in Hstatus.
  unfold statuses_consistent in Hc. rewrite Forall_forall in Hc.
  pose proof (Hc d Hd) as (Hpaid & _ & Hunpaid).
  split; [eauto |]. split; [exact Hstatus |]. split; [| split].
  - intros Es. apply Hpaid. rewrite Es in Hstatus.
    destruct (Bill.status (data d)); [discriminate | discriminate | reflexivity].
  - intros Es. apply Hunpaid. rewrite Es in Hstatus.
    destruct (Bill.status (data d)); [reflexivity | discriminate | discriminate].
  - intros c' s' Es. specialize (Hstudent c' s' Es).
    now apply String.eqb_eq in Hstudent.
Qed.

(** After Ana's payment of 300 her bill is the one listed under "paid". *)
Lemma listed_bills_match_status_witness :
  statuses_consistent (snd (reconciliation_step (pay 300%float) after_cs101))
  /\ List.length
       (fst_items
          (list_bills (Some "ana") (Some "paid")
             (snd (reconciliation_step (pay 300%float) after_cs101)))) = 1
  /\ forall i b,
       In (i, b)
         (fst_items
            (list_bills (Some "ana") (Some "paid")
               (snd (reconciliation_step (pay 300%float) after_cs101)))) ->
       (exists d,
          In d (bill (snd (reconciliation_step (pay 300%float) after_cs101)))
          /\ i = str (_id d) /\ b = data d)
       /\ status_name (Bill.status b) = "paid"
       /\ ("paid" = "paid" ->
           (Bill.total b <=? Bill.paid b)%float = true
           /\ (0 <? Bill.total b)%float = true)
       /\ ("paid" = "unpaid" -> (0 <? Bill.paid b)%float = false)
       /\ (forall c' s', Some "ana" = Some (String c' s') ->
           Bill.student_id b = String c' s').
Proof.
  assert (Hc : statuses_consistent
                 (snd (reconciliation_step (pay 300%float) after_cs101))).
  { apply (step_keeps_statuses (pay 300%float) after_cs101 _
             (fst (reconciliation_step (pay 300%float) after_cs101))).
    - apply (reachable_bills_consistent catalog); [reflexivity |].
      apply (reaches_step _ enroll_ana_cs101
               (Return "000000000000000000000010") catalog);
        [constructor | vm_compute; reflexivity].
    - vm_compute. reflexivity. }
  split; [exact Hc |]. split; [reflexivity |].
  exact (proj2 (listed_bills_match_status (Some "ana") "p" "aid" _ _ _ Hc
                  eq_refl)).
Defined.

(** X9. After a successful enrollment of a student with a non-empty
    identifier, [list_bills] for that student lists the bill of the
    enrollment's semester: its lines are the earlier ones followed by the
    new tuition line, and its total is the sum of the line amounts. *)
Theorem enrollment_bill_is_listed (new_eid new_bid : oid) (now : datetime)
    (enr : Enrollment.t) (db db' : Database) (r : string) :
  unique_ids (bill db) ->
  create_enrollment new_eid new_bid now enr db = (Return r, db') ->
  Enrollment.student_id enr <> "" ->
  exists items i b,
    list_bills (Some (Enrollment.student_id enr)) None db' = (Return items, db')
    /\ In (i, b) items
    /\ Bill.student_id b = Enrollment.student_id enr
    /\ Bill.semester b = Enrollment.semester enr
    /\ Bill.lines b =
       Bill.lines (data (bill_before db new_bid enr)) ++ [tuition_line db enr]
    /\ Bill.total b = py_sum (map BillLine.amount (Bill.lines b)).
Proof.
  intros Hu Hrun Hne.
  pose proof (enrollment_bill_after _ _ _ _ _ _ _ Hu Hrun) as Hfind.
  apply find_some in Hfind. destruct Hfind as [Hin Hkey].
  apply bill_of_true in Hkey. injection Hkey as Hs Hm.
  rewrite list_bills_run. eexists. eexists. eexists.
  split; [reflexivity |]. split.
  - apply in_map_iff. eexists. split; [reflexivity |].
    apply filter_In. split; [exact Hin |].
    destruct (Enrollment.student_id enr) as [| c s] eqn:E; [congruence |].
    cbn [set_if app forallb]. unfold field_is.
    rewrite andb_true_r. apply String.eqb_eq.
    change (Bill.student_id
              (data (reconcile (tuition_line db enr) now
                       (bill_before db new_bid enr))))
      with (Bill.student_id (data (bill_before db new_bid enr))).
    exact Hs.
  - cbn [stringify_id snd]. repeat split; assumption || reflexivity.
Qed.

Lemma enrollment_bill_is_listed_witness :
  exists items i b,
    list_bills (Some "ana") None after_cs101 = (Return items, after_cs101)
    /\ In (i, b) items
    /\ Bill.student_id b = "ana"
    /\ Bill.semester b = "2025-1"
    /\ Bill.lines b = [] ++ [tuition_line catalog ana_cs101]
    /\ Bill.total b = py_sum (map BillLine.amount (Bill.lines b)).
Proof.
  apply (enrollment_bill_is_listed (oid_of_byte x10) (oid_of_byte x20) 5%N
           ana_cs101 catalog after_cs101 "000000000000000000000010").
  - constructor.
  - vm_compute. reflexivity.
  - discriminate.
Defined.

(** ** Dictionaries *)

Lemma dict_get_del_same (k : string) (d : dict) :
  dict_get k (dict_del k d) = None.
Proof.
  unfold dict_del. induction d as [| [k' v] rest IH]; simpl; [reflexivity |].
  destruct (String.eqb k' k) eqn:E; simpl; [exact IH |].
  now rewrite E.
Qed.

Lemma dict_get_del_other (k k' : string) (d : dict) :
  k' <> k -> dict_get k' (dict_del k d) = dict_get k' d.
Proof.
  intros Hne. unfold dict_del.
  induction d as [| [k0 v] rest IH]; simpl; [reflexivity |].
  destruct (String.eqb k0 k) eqn:E; simpl.
  - apply String.eqb_eq in E. subst k0.
    destruct (String.eqb k k') eqn:E'; [| exact IH].
    apply String.eqb_eq in E'. congruence.
  - destruct (String.eqb k0 k'); [reflexivity | exact IH].
Qed.

Lemma dict_get_set_same (k : string) (v : value) (d : dict) :
  dict_get k (dict_set k v d) = Some v.
Proof.
  induction d as [| [k' v'] rest IH]; simpl.
  - now rewrite String.eqb_refl.
  - destruct (String.eqb k' k) eqn:E; simpl.
    + now rewrite String.eqb_refl.
    + now rewrite E.
Qed.

Lemma dict_get_set_other (k k' : string) (v : value) (d : dict) :
  k' <> k -> dict_get k' (dict_set k v d) = dict_get k' d.
Proof.
  intros Hne. induction d as [| [k0 v0] rest IH]; simpl.
  - destruct (String.eqb k k') eqn:E; [| reflexivity].
    apply String.eqb_eq in E. congruence.
  - destruct (String.eqb k0 k) eqn:E; simpl.
    + apply String.eqb_eq in E. subst k0.
      destruct (String.eqb k k') eqn:E'; [| reflexivity].
      apply String.eqb_eq in E'. congruence.
    + destruct (String.eqb k0 k'); [reflexivity | exact IH].
Qed.

Lemma value_eqb_eq (a b : value) : value_eqb a b = true <-> a = b.
Proof.
  destruct a, b; simpl; try (split; discriminate).
  - rewrite String.eqb_eq. split; congruence.
  - rewrite Bool.eqb_true_iff. split; congruence.
  - rewrite oid_eqb_eq. split; congruence.
Qed.

Lemma get_is_true (k : string) (v : value) (d : dict) :
  get_is k v d = true <-> dict_get k d = Some v.
Proof.
  unfold get_is. destruct (dict_get k d) as [x |].
  - rewrite value_eqb_eq. split; congruence.
  - split; discriminate.
Qed.

(** The dictionary a stored document is returned as, after its [_id] was
    made a string. *)
Lemma stringify_dict_id_eq (d : doc dict) :
  stringify_dict_id d = ("_id", VStr (str (_id d))) :: data d.
Proof. reflexivity. Qed.

(** ** Users *)

(** X10. [create_user] never stores a second user under an email already
    stored: a request for an email some user has fails with 400 "Email
    already in use" and changes nothing, and whatever the outcome no two
    stored users share an email afterwards if none did before. *)
Theorem create_user_keeps_emails_unique (new_uid : oid)
    (payload : UserCreate.t) (user user' : list (doc dict))
    (r : outcome string) :
  unique_emails user ->
  create_user new_uid payload user = (r, user') ->
  unique_emails user'
  /\ ((exists d, In d user
                 /\ dict_get "email" (data d) =
                    Some (VStr (UserCreate.email payload))) ->
      r = Raise (HTTPException 400 "Email already in use") /\ user' = user).
Proof.
  unfold unique_emails, create_user. intros Hu.
  destruct (List.find _ user) as [d0 |] eqn:Ef.
  - intros [= <- <-]. auto.
  - unfold insert_document.
    destruct (existsb (by_id new_uid) user); intros [= <- <-].
    + split; [assumption |]. intros (d & Hd & He).
      apply (find_none _ _ Ef) in Hd. unfold dict_field_is in Hd.
      apply get_is_true in He. congruence.
    + split.
      * rewrite map_app. simpl. apply NoDup_app_one; [assumption |].
        rewrite in_map_iff. intros (d & He & Hd).
        apply (find_none _ _ Ef) in Hd. unfold dict_field_is in Hd.
        rewrite <- not_true_iff_false in Hd. apply Hd.
        apply get_is_true. exact He.
      * intros (d & Hd & He).
        apply (find_none _ _ Ef) in Hd. unfold dict_field_is in Hd.
        apply get_is_true in He. congruence.
Qed.

(** A second account under Ana's email is refused. *)
Lemma create_user_keeps_emails_unique_witness :
  unique_emails one_user
  /\ create_user (oid_of_byte x41)
       (UserCreate.mk "Ana B." "ana@school.test" "admin" "other") one_user =
     (Raise (HTTPException 400 "Email already in use"), one_user)
  /\ unique_emails one_user
  /\ ((exists d, In d one_user
                 /\ dict_get "email" (data d) = Some (VStr "ana@school.test")) ->
      (Raise (HTTPException 400 "Email already in use") : outcome string) =
        Raise (HTTPException 400 "Email already in use")
      /\ one_user = one_user).
Proof.
  assert (Hu : unique_emails one_user) by (repeat constructor; simpl; tauto).
  assert (Hrun : create_user (oid_of_byte x41)
                   (UserCreate.mk "Ana B." "ana@school.test" "admin" "other")
                   one_user =
                 (Raise (HTTPException 400 "Email already in use"), one_user))
    by reflexivity.
  split; [exact Hu |]. split; [exact Hrun |].
  exact (create_user_keeps_emails_unique _ _ _ _ _ Hu Hrun).
Defined.

(** X11. A user that [create_user] stored can log in with the email and
    password given, when the truth test of the database handle holds: the
    answer carries the returned identifier, the name, email and role as
    given and [is_active = True], and no password. *)
Theorem create_user_then_login (new_uid : oid) (payload : UserCreate.t)
    (user user' : list (doc dict)) (uid : string) :
  create_user new_uid payload user = (Return uid, user') ->
  login (Return true)
    (LoginRequest.mk (UserCreate.email payload) (UserCreate.password payload))
    user' =
  Return
    [("_id", VStr uid);
     ("name", VStr (UserCreate.name payload));
     ("email", VStr (UserCreate.email payload));
     ("role", VStr (UserCreate.role payload));
     ("is_active", VBool true)].
Proof.
  unfold create_user.
  destruct (List.find _ user) as [d0 |] eqn:Ef; [discriminate |].
  unfold insert_document.
  destruct (existsb (by_id new_uid) user); [discriminate |].
  intros [= <- <-]. unfold login. cbn [LoginRequest.email LoginRequest.password].
  rewrite filter_app.
  rewrite (filter_nil _ user) by (intros x Hx; exact (find_none _ _ Ef x Hx)).
  cbn [app List.filter].
  match goal with
  | |- context [dict_field_is ?k ?e ?d] =>
      assert (He : dict_field_is k e d = true)
        by (unfold dict_field_is; apply get_is_true; reflexivity);
      rewrite He
  end.
  match goal with
  | |- context [get_is ?k ?v ?d] =>
      assert (Hp : get_is k v d = true) by (apply get_is_true; reflexivity);
      rewrite Hp
  end.
  reflexivity.
Qed.

Lemma create_user_then_login_witness :
  login (Return true) (LoginRequest.mk "ana@school.test" "s3cret") one_user =
  Return
    [("_id", VStr "000000000000000000000040");
     ("name", VStr "Ana");
     ("email", VStr "ana@school.test");
     ("role", VStr "student");
     ("is_active", VBool true)].
Proof.
  apply (create_user_then_login (oid_of_byte x40) ana_account [] one_user
           "000000000000000000000040").
  reflexivity.
Defined.

(** X12. [login] answers only for stored credentials and never shows the
    password: when it answers, the truth test of the database handle held,
    some stored user has the email and the password of the request, and the
    answer has that user's identifier as a string and no "password" key.
    When the truth test gives a value every failure is 401 "Invalid
    credentials", for an unknown email as for a wrong password; when the
    truth test raises, [login] raises the same. *)
Theorem login_answer (truth : bool) (payload : LoginRequest.t)
    (user : list (doc dict)) :
  (forall answer,
     login (Return truth) payload user = Return answer ->
     truth = true
     /\ dict_get "password" answer = None
     /\ exists d,
          In d user
          /\ dict_get "email" (data d) =
             Some (VStr (LoginRequest.email payload))
          /\ dict_get "password" (as_dict d) =
             Some (VStr (LoginRequest.password payload))
          /\ dict_get "_id" answer = Some (VStr (str (_id d))))
  /\ (forall e,
        login (Return truth) payload user = Raise e ->
        e = HTTPException 401 "Invalid credentials")
  /\ (forall e, login (Raise e) payload user = Raise e).
Proof.
  split; [| split; [| reflexivity]]; unfold login.
  - destruct truth; [| discriminate].
    destruct (List.filter _ user) as [| found rest] eqn:Ef; [discriminate |].
    assert (Hfound : In found
                       (List.filter
                          (dict_field_is "email" (LoginRequest.email payload))
                          user))
      by (rewrite Ef; now left).
    apply filter_In in Hfound. destruct Hfound as [Hin Hemail].
    apply get_is_true in Hemail.
    destruct (get_is "password" _ (as_dict found)) eqn:Ep; simpl;
      [| discriminate].
    apply get_is_true in Ep.
    intros answer [= <-]. split; [reflexivity |]. split.
    + apply (dict_get_del_same "password").
    + exists found. repeat split; auto.
  - destruct truth; [| now intros e [= <-]].
    destruct (List.filter _ user) as [| found rest]; [now intros e [= <-] |].
    destruct (get_is "password" _ (as_dict found)); simpl;
      [discriminate | now intros e [= <-]].
Qed.

Lemma login_answer_witness :
  (forall answer,
     login (Return true) (LoginRequest.mk "ana@school.test" "s3cret") one_user =
       Return answer ->
     true = true
     /\ dict_get "password" answer = None
     /\ exists d,
          In d one_user
          /\ dict_get "email" (data d) = Some (VStr "ana@school.test")
          /\ dict_get "password" (as_dict d) = Some (VStr "s3cret")
          /\ dict_get "_id" answer = Some (VStr (str (_id d))))
  /\ login (Return true) (LoginRequest.mk "ana@school.test" "wrong") one_user =
     Raise (HTTPException 401 "Invalid credentials")
  /\ login (Return true) (LoginRequest.mk "bob@school.test" "s3cret") one_user =
     Raise (HTTPException 401 "Invalid credentials").
Proof.
  split; [| split; reflexivity].
  exact (proj1 (login_answer true
                  (LoginRequest.mk "ana@school.test" "s3cret") one_user)).
Defined.

(** X13. [list_users] never shows a password: every listed dictionary is
    that of a stored user, with the identifier as a string under "_id", the
    other fields as stored, and no "password" key; with a non-empty role
    filter every listed user has that role. *)
Theorem list_users_hides_passwords (role : option string)
    (user : list (doc dict)) (u : dict) :
  In u (list_users role user) ->
  dict_get "password" u = None
  /\ exists d,
       In d user
       /\ dict_get "_id" u = Some (VStr (str (_id d)))
       /\ (forall k, k <> "_id" -> k <> "password" ->
           dict_get k u = dict_get k (data d))
       /\ (forall c r, role = Some (String c r) ->
           dict_get "role" (data d) = Some (VStr (String c r))).
Proof.
  unfold list_users, matching. intros Hin.
  apply in_map_iff in Hin. destruct Hin as (d & <- & Hd).
  apply filter_In in Hd. destruct Hd as [Hd Hmatch].
  apply forallb_set_if in Hmatch. destruct Hmatch as [_ Hrole].
  assert (Hget : forall k, k <> "_id" ->
                 dict_get k (stringify_dict_id d) = dict_get k (data d)).
  { intros k Hk. rewrite stringify_dict_id_eq. cbn [dict_get].
    destruct (String.eqb "_id" k) eqn:E; [| reflexivity].
    apply String.eqb_eq in E. congruence. }
  unfold dict_has.
  destruct (dict_get "password" (stringify_dict_id d)) as [pw |] eqn:Ep.
  - split; [apply dict_get_del_same |].
    exists d. split; [assumption |]. split; [reflexivity |]. split.
    + intros k Hk Hk'. rewrite dict_get_del_other by assumption. auto.
    + intros c r Er. apply get_is_true. exact (Hrole c r Er).
  - split; [exact Ep |].
    exists d. split; [assumption |]. split; [reflexivity |]. split.
    + intros k Hk _. auto.
    + intros c r Er. apply get_is_true. exact (Hrole c r Er).
Qed.

Lemma list_users_hides_passwords_witness :
  In [("_id", VStr "000000000000000000000040"); ("name", VStr "Ana");
      ("email", VStr "ana@school.test"); ("role", VStr "student");
      ("is_active", VBool true)]
    (list_users (Some "student") one_user)
  /\ dict_get "password"
       [("_id", VStr "000000000000000000000040"); ("name", VStr "Ana");
        ("email", VStr "ana@school.test"); ("role", VStr "student");
        ("is_active", VBool true)] = None
  /\ exists d,
       In d one_user
       /\ dict_get "_id"
            [("_id", VStr "000000000000000000000040"); ("name", VStr "Ana");
             ("email", VStr "ana@school.test"); ("role", VStr "student");
             ("is_active", VBool true)] = Some (VStr (str (_id d)))
       /\ (forall k, k <> "_id" -> k <> "password" ->
           dict_get k
             [("_id", VStr "000000000000000000000040"); ("name", VStr "Ana");
              ("email", VStr "ana@school.test"); ("role", VStr "student");
              ("is_active", VBool true)] = dict_get k (data d))
       /\ (forall c r, Some "student" = Some (String c r) ->
           dict_get "role" (data d) = Some (VStr (String c r))).
Proof.
  assert (Hin : In [("_id", VStr "000000000000000000000040");
                    ("name", VStr "Ana"); ("email", VStr "ana@school.test");
                    ("role", VStr "student"); ("is_active", VBool true)]
                  (list_users (Some "student") one_user))
    by (left; reflexivity).
  split; [exact Hin |].
  exact (list_users_hides_passwords _ _ _ Hin).
Defined.

(** ** The subject listing *)



(** ** Requests that fail *)

(** X16. An enrollment or payment request that ends in an [HTTPException]
    has written nothing: the database is as it was, and the exception is the
    400 "Already enrolled" of an enrollment or the 404 "Bill not found" of a
    payment. *)
Theorem http_failure_writes_nothing (req : request) (db db' : Database)
    (code : nat) (detail : string) :
  reconciliation_step req db = (Raise (HTTPException code detail), db') ->
  db' = db
  /\ ((exists new_eid new_bid now enr,
         req = PostEnrollment new_eid new_bid now enr
         /\ code = 400 /\ detail = "Already enrolled"
         /\ List.filter (same_enrollment enr) (enrollment db) <> [])
      \/ (exists new_pid paid_at now payload,
            req = PostPayment new_pid paid_at now payload
            /\ code = 404 /\ detail = "Bill not found"
            /\ bill_of_request req db = None)).
Proof.
  destruct req as [new_eid new_bid now enr | new_pid paid_at now payload];
    simpl.
  - rewrite create_enrollment_run.
    destruct (List.filter _ _) eqn:Ef.
    + destruct (existsb _ (enrollment db)); [discriminate |].
      cbv zeta. destruct (List.find _ (bill db)); [discriminate |].
      destruct (existsb _ (bill db)); discriminate.
    + intros [= <- <- <-]. split; [reflexivity |]. left.
      exists new_eid, new_bid, now, enr.
      split; [reflexivity |]. split; [reflexivity |]. split; [reflexivity |].
      rewrite Ef. discriminate.
  - rewrite create_payment_run.
    destruct (ObjectId _) as [o | e] eqn:Eo.
    + destruct (List.find _ (bill db)) eqn:Ef.
      * destruct (existsb _ (payment db)); discriminate.
      * intros [= <- <- <-]. split; [reflexivity |]. right.
        exists new_pid, paid_at, now, payload. repeat split.
    + pose proof (ObjectId_cases (PaymentCreate.bill_id payload)) as [[o Ho] | Hi];
        rewrite Eo in *; [discriminate |].
      injection Hi as ->. discriminate.
Qed.

Lemma http_failure_writes_nothing_witness :
  reconciliation_step
    (PostEnrollment (oid_of_byte x11) (oid_of_byte x21) 6%N ana_cs101)
    after_cs101 =
    (Raise (HTTPException 400 "Already enrolled"), after_cs101)
  /\ after_cs101 = after_cs101
  /\ ((exists new_eid new_bid now enr,
         PostEnrollment (oid_of_byte x11) (oid_of_byte x21) 6%N ana_cs101 =
           PostEnrollment new_eid new_bid now enr
         /\ 400 = 400 /\ "Already enrolled" = "Already enrolled"
         /\ List.filter (same_enrollment enr) (enrollment after_cs101) <> [])
      \/ (exists new_pid paid_at now payload,
            PostEnrollment (oid_of_byte x11) (oid_of_byte x21) 6%N ana_cs101 =
              PostPayment new_pid paid_at now payload
            /\ 400 = 404 /\ "Already enrolled" = "Bill not found"
            /\ bill_of_request
                 (PostEnrollment (oid_of_byte x11) (oid_of_byte x21) 6%N
                    ana_cs101) after_cs101 = None)).
Proof.
  assert (Hrun : reconciliation_step
                   (PostEnrollment (oid_of_byte x11) (oid_of_byte x21) 6%N
                      ana_cs101) after_cs101 =
                 (Raise (HTTPException 400 "Already enrolled"), after_cs101))
    by (vm_compute; reflexivity).
  split; [exact Hrun |].
  exact (http_failure_writes_nothing _ _ _ _ _ Hrun).
Defined.

(** ** Enrollments: at most one item per triple *)

Lemma filter_at_most_one {A K : Type} (k : A -> K) (key : K) (p : A -> bool)
    (l : list A) :
  (forall d, p d = true -> k d = key) ->
  NoDup (map k l) -> List.length (List.filter p l) <= 1.
Proof.
  intros Hp. induction l as [| d rest IH]; simpl; [lia |].
  intros Hnd. inversion Hnd as [| ? ? Hnot Hrest]; subst.
  destruct (p d) eqn:E; [| auto].
  rewrite filter_nil; [simpl; lia |].
  intros x Hx. destruct (p x) eqn:Ex; [| reflexivity].
  exfalso. apply Hnot. rewrite (Hp d E), <- (Hp x Ex). now apply in_map.
Qed.

(** X17. When no two stored enrollments share their (student, subject,
    semester), [list_enrollments] filtered by three non-empty values lists
    at most one item, and leaves the database as it was. *)
Theorem triple_listing_at_most_one (db : Database) (c1 c2 c3 : ascii)
    (s1 s2 s3 : string) :
  one_enrollment_per_triple db ->
  snd (list_enrollments (Some (String c1 s1)) (Some (String c2 s2))
         (Some (String c3 s3)) db) = db
  /\ List.length
       (fst_items
          (list_enrollments (Some (String c1 s1)) (Some (String c2 s2))
             (Some (String c3 s3)) db)) <= 1.
Proof.
  intros Hu. rewrite list_enrollments_run. split; [reflexivity |].
  unfold fst_items. cbn [fst]. rewrite length_map.
  apply (filter_at_most_one enrollment_key
           (String c1 s1, String c2 s2, String c3 s3)); [| exact Hu].
  intros d. cbn [set_if app forallb]. unfold field_is, enrollment_key.
  rewrite andb_true_r, !andb_true_iff, !String.eqb_eq.
  intros (-> & -> & ->). reflexivity.
Qed.

Lemma triple_listing_at_most_one_witness :
  snd (list_enrollments (Some "ana") (Some "000000000000000000000002")
         (Some "2025-1") after_ma201) = after_ma201
  /\ List.length
       (fst_items
          (list_enrollments (Some "ana") (Some "000000000000000000000002")
             (Some "2025-1") after_ma201)) <= 1.
Proof.
  apply (triple_listing_at_most_one after_ma201 "a" "0" "2" "na"
           "00000000000000000000002" "025-1").
  repeat constructor; simpl; intuition discriminate.
Defined.
